(** * IISLogger: incremental ingestion of IIS access logs

    A shallow embedding of [ReadIISLogs.py] and [GeolocateIPs.py].

    The scripts are glue around pandas, datetime and psycopg2.  The
    embedding keeps the repository's own control flow (loops, branches,
    try/except/finally) as executable definitions and takes the library
    calls it relies on ([pd.read_csv], [pd.to_datetime],
    [datetime.strptime], [Series.str.contains]) as the fields of a record
    [PyLib]; [ref_lib] is a small executable instance used by the worked
    examples.  Database calls are modelled by their outcome. *)

From Equations Require Import Equations.
From Stdlib Require Import List Arith Bool Lia String Ascii.
Import ListNotations.
Local Open Scope string_scope.
Local Open Scope list_scope.
Local Open Scope nat_scope.


(* ===================================================================== *)
(** * Python strings *)
(* ===================================================================== *)

(** A Python [str] is modelled by a [string] whose elements stand for its
    characters, one [ascii] for each: lengths and slices count
    characters.  Texts with characters beyond the 256 of [ascii] are
    outside the model. *)
Module PyStr.

(** [s.split(sep)] for a one-character separator: every occurrence of
    [sep] cuts, so consecutive separators give empty items and the result
    is never empty. *)
Fixpoint split (sep : ascii) (s : string) : list string :=
  match s with
  | EmptyString => [EmptyString]
  | String c rest =>
      if Ascii.eqb c sep then EmptyString :: split sep rest
      else match split sep rest with
           | [] => [String c EmptyString]
           | w :: ws => String c w :: ws
           end
  end.

(** [s.rsplit(sep, 1)[-1]]: what follows the last [sep], the whole
    string when there is none. *)
Fixpoint rsplit_last (sep : ascii) (s : string) : string :=
  match s with
  | EmptyString => EmptyString
  | String c rest =>
      if existsb (Ascii.eqb sep) (list_ascii_of_string rest) then rsplit_last sep rest
      else if Ascii.eqb c sep then rest
      else s
  end.

(** [s[a:b]] for [0 <= a <= b]. *)
Definition slice (a b : nat) (s : string) : string := substring a (b - a) s.

(** [s[:n]]. *)
Definition prefix_n (n : nat) (s : string) : string := substring 0 n s.

(** [s[:1] != "#"] is false: the line is a comment. *)
Definition is_comment (linestr : string) : bool :=
  String.eqb (prefix_n 1 linestr) "#".

(** Plain substring search, [pat in s]. *)
Fixpoint contains (pat s : string) : bool :=
  String.prefix pat s ||
  match s with
  | EmptyString => false
  | String _ rest => contains pat rest
  end.

Definition newline : ascii := "010"%char.
Definition space : ascii := " "%char.
Definition backslash : ascii := "\"%char.

End PyStr.

(* ===================================================================== *)
(** * A text file handle: [f.readline()] *)
(* ===================================================================== *)

Module TextFile.

(** The state of an open text file is the text not yet read.
    [readline] returns the next line, its newline included, and the new
    state; at the end of the file it returns the empty string. *)
Fixpoint readline (fh : string) : string * string :=
  match fh with
  | EmptyString => (EmptyString, EmptyString)
  | String c rest =>
      if Ascii.eqb c PyStr.newline then (String c EmptyString, rest)
      else let (l, fh') := readline rest in (String c l, fh')
  end.

(** All the lines of a text, in the order repeated [readline] calls
    return them: each ends with its newline, except possibly the last. *)
Fixpoint readlines (fh : string) : list string :=
  match fh with
  | EmptyString => []
  | String c rest =>
      if Ascii.eqb c PyStr.newline then String c EmptyString :: readlines rest
      else match readlines rest with
           | [] => [String c EmptyString]
           | l :: ls => String c l :: ls
           end
  end.

End TextFile.

(* ===================================================================== *)
(** * Data frames *)
(* ===================================================================== *)

(** A cell of a frame: a string, or pandas' missing value.  The cells of
    the columns pandas reads as numbers are kept as their text; how a
    column was typed is recorded with the table it belongs to. *)
Inductive Cell : Type :=
| NaN
| Str (s : string).

Definition cell_eqb (a b : Cell) : bool :=
  match a, b with
  | NaN, NaN => true
  | Str s, Str t => String.eqb s t
  | _, _ => false
  end.

Definition notna (c : Cell) : bool :=
  match c with NaN => false | Str _ => true end.

(** A frame whose columns are still numbered: what [pd.read_csv(...,
    header=None)] and [pd.DataFrame(lines)] build.  [pd.DataFrame()] is
    the table with no column and no row.  [t_text i] tells whether
    column [i] was typed as text (dtype object); [read_csv] types a
    column whose values all read as numbers, or are all missing, as
    numbers, and the [.str] accessor refuses such a column. *)
Record Table : Type := mkTable {
  t_ncols : nat;
  t_rows : list (list Cell);
  t_text : nat -> bool
}.

Definition empty_table : Table := mkTable 0 [] (fun _ => true).

(** [pd.DataFrame(lines)] for a list of lists of strings: as many
    columns as the longest list, every column typed as text. *)
Definition table_of_lines (lines : list (list string)) : Table :=
  mkTable (fold_right (fun l w => Nat.max (List.length l) w) 0 lines)
          (map (map Str) lines)
          (fun _ => true).

(* ===================================================================== *)
(** * [readFileTheHardWay] *)
(* ===================================================================== *)

Module HardWay.
Import PyStr TextFile.

(** The body of the [while linestr:] loop: a non-comment line is split
    on single spaces and appended when it has [numCols] items. *)
Definition keep_line (numCols : nat) (linestr : string)
    (lines : list (list string)) : list (list string) :=
  if negb (is_comment linestr) then
    let lineitems := split space linestr in
    if Nat.eqb (List.length lineitems) numCols then (lines ++ [lineitems])%list
    else lines
  else lines.

(** [linestr = f.readline(); while linestr: ...; linestr = f.readline()].
    [fh] is the state of the file handle. *)
Equations? read_loop (numCols : nat) (linestr fh : string)
    (lines : list (list string)) : list (list string)
    by wf (String.length linestr + String.length fh) lt :=
  read_loop numCols EmptyString fh lines := lines;
  read_loop numCols (String c l) fh lines :=
    read_loop numCols (fst (readline fh)) (snd (readline fh))
              (keep_line numCols (String c l) lines).
Proof.
  assert (E : forall t, String.length (fst (readline t))
                        + String.length (snd (readline t)) = String.length t).
  { induction t as [|a t IH]; simpl; [reflexivity|].
    destruct (Ascii.eqb a newline); simpl; [reflexivity|].
    destruct (readline t); simpl in *; lia. }
  rewrite E; simpl; lia.
Qed.

(** [sfile] is the text that [open(sfile, 'r', encoding="ascii",
    errors="replace")] delivers (undecodable bytes already replaced, line
    ends already translated), or [None] when the file cannot be opened:
    the exception is caught and the initial [pd.DataFrame()] returned. *)
Definition readFileTheHardWay (sfile : option string) (numCols : nat) : Table :=
  match sfile with
  | None => empty_table
  | Some text =>
      let lines := read_loop numCols (fst (readline text)) (snd (readline text)) [] in
      if 0 <? List.length lines then table_of_lines lines else empty_table
  end.

(** The fallback parse as the specification words it: drop the comment
    lines, split the others on single spaces, keep the splits of the
    expected size. *)
Definition well_formed (numCols : nat) (linestr : string) : bool :=
  negb (is_comment linestr) && Nat.eqb (List.length (split space linestr)) numCols.

Definition tolerant_parse (numCols : nat) (text : string) : list (list string) :=
  map (split space) (filter (well_formed numCols) (readlines text)).

(** A line of a text file: not empty, and its only newline is its last
    character. *)
Fixpoint is_line (l : string) : bool :=
  match l with
  | EmptyString => false
  | String c rest =>
      match rest with
      | EmptyString => Ascii.eqb c newline
      | String _ _ => negb (Ascii.eqb c newline) && is_line rest
      end
  end.

(** A non-comment line whose split has the wrong size. *)
Definition wrong_count (numCols : nat) (linestr : string) : bool :=
  negb (is_comment linestr)
  && negb (Nat.eqb (List.length (split space linestr)) numCols).

Definition text_of_lines (ls : list string) : string :=
  fold_right String.append EmptyString ls.


(** ** Properties of the fallback parse *)

Lemma readline_nonempty (c : ascii) (t : string) :
  fst (readline (String c t)) <> EmptyString.
Proof.
  simpl. destruct (Ascii.eqb c newline); [discriminate|].
  destruct (readline t); discriminate.
Qed.

Lemma readlines_unfold (c : ascii) (t : string) :
  readlines (String c t)
  = fst (readline (String c t)) :: readlines (snd (readline (String c t))).
Proof.
  revert c. induction t as [|a t IH]; intros c.
  - simpl. destruct (Ascii.eqb c newline); reflexivity.
  - change (readlines (String c (String a t)))
      with (if Ascii.eqb c newline
            then String c EmptyString :: readlines (String a t)
            else match readlines (String a t) with
                 | [] => [String c EmptyString]
                 | l :: ls => String c l :: ls
                 end).
    change (readline (String c (String a t)))
      with (if Ascii.eqb c newline then (String c EmptyString, String a t)
            else let (l, fh') := readline (String a t) in (String c l, fh')).
    destruct (Ascii.eqb c newline); [reflexivity|].
    rewrite (IH a). destruct (readline (String a t)); reflexivity.
Qed.

Lemma read_loop_fold (numCols : nat) (linestr fh : string)
    (lines : list (list string)) :
  linestr <> EmptyString ->
  read_loop numCols linestr fh lines
  = fold_left (fun acc l => keep_line numCols l acc) (linestr :: readlines fh) lines.
Proof.
  funelim (read_loop numCols linestr fh lines); intros Hne; [congruence|].
  simp read_loop. destruct fh as [|a t].
  - simpl. simp read_loop. reflexivity.
  - rewrite H by apply readline_nonempty.
    rewrite (readlines_unfold a t). reflexivity.
Qed.

Lemma fold_keep_line (numCols : nat) (ls : list string) (lines : list (list string)) :
  fold_left (fun acc l => keep_line numCols l acc) ls lines
  = lines ++ map (split space) (filter (well_formed numCols) ls).
Proof.
  revert lines. induction ls as [|l ls IH]; intros lines; simpl.
  - now rewrite app_nil_r.
  - rewrite IH. unfold keep_line, well_formed.
    destruct (negb (is_comment l)); simpl; [|reflexivity].
    destruct (Nat.eqb (List.length (split space l)) numCols); simpl; [|reflexivity].
    now rewrite <- app_assoc.
Qed.

Lemma hard_way_lines (numCols : nat) (text : string) :
  read_loop numCols (fst (readline text)) (snd (readline text)) []
  = tolerant_parse numCols text.
Proof.
  unfold tolerant_parse. destruct text as [|c t].
  - simpl. simp read_loop. reflexivity.
  - rewrite read_loop_fold by apply readline_nonempty.
    rewrite <- readlines_unfold. now rewrite fold_keep_line.
Qed.

Lemma hard_way_rows (numCols : nat) (text : string) :
  t_rows (readFileTheHardWay (Some text) numCols)
  = map (map Str) (tolerant_parse numCols text).
Proof.
  unfold readFileTheHardWay. rewrite hard_way_lines.
  destruct (tolerant_parse numCols text); reflexivity.
Qed.

Lemma readlines_app_line (l t : string) :
  is_line l = true -> readlines (l ++ t)%string = l :: readlines t.
Proof.
  induction l as [|c rest IH]; [discriminate|].
  destruct rest as [|d rest'].
  - simpl. intros ->. reflexivity.
  - intros H. change (is_line (String c (String d rest')))
      with (negb (Ascii.eqb c newline) && is_line (String d rest')) in H.
    apply andb_true_iff in H. destruct H as [Hc Hl].
    change (readlines (String c (String d rest') ++ t)%string)
      with (if Ascii.eqb c newline
            then String c EmptyString :: readlines (String d rest' ++ t)%string
            else match readlines (String d rest' ++ t)%string with
                 | [] => [String c EmptyString]
                 | l :: ls => String c l :: ls
                 end).
    destruct (Ascii.eqb c newline); [discriminate|].
    now rewrite (IH Hl).
Qed.

Lemma readlines_text_of_lines (ls : list string) :
  forallb is_line ls = true -> readlines (text_of_lines ls) = ls.
Proof.
  induction ls as [|l ls IH]; simpl; [reflexivity|].
  intros H. apply andb_true_iff in H. destruct H as [Hl Hls].
  rewrite readlines_app_line by exact Hl. now rewrite IH.
Qed.

Lemma count_partition (numCols : nat) (ls : list string) :
  List.length ls
  = List.length (filter (well_formed numCols) ls)
    + List.length (filter (wrong_count numCols) ls)
    + List.length (filter is_comment ls).
Proof.
  induction ls as [|l ls IH]; [reflexivity|].
  cbn [filter]. unfold well_formed at 1, wrong_count at 1.
  destruct (is_comment l); cbn [negb andb List.length]; [lia|].
  destruct (Nat.eqb (List.length (split space l)) numCols);
    cbn [negb andb List.length]; lia.
Qed.

End HardWay.

(* ===================================================================== *)
(** * Dates and timestamps *)
(* ===================================================================== *)

(** [datetime.date]. *)
Record Date : Type := mkDate {
  year : nat;
  month : nat;
  day : nat
}.

(** [datetime.datetime] built from whole seconds, as line 90 builds the
    watermark, and the timestamps of log rows (IIS writes whole
    seconds). *)
Record DateTime : Type := mkDateTime {
  dt_date : Date;
  hour : nat;
  minute : nat;
  second : nat
}.

Module PyDate.

Definition lex (c : comparison) (k : comparison) : comparison :=
  match c with Eq => k | _ => c end.

Definition date_compare (a b : Date) : comparison :=
  lex (year a ?= year b) (lex (month a ?= month b) (day a ?= day b)).

Definition datetime_compare (a b : DateTime) : comparison :=
  lex (date_compare (dt_date a) (dt_date b))
      (lex (hour a ?= hour b) (lex (minute a ?= minute b) (second a ?= second b))).

(** [a >= b] on dates. *)
Definition date_geb (a b : Date) : bool :=
  match date_compare a b with Lt => false | _ => true end.

(** [a == b] on dates. *)
Definition date_eqb (a b : Date) : bool :=
  match date_compare a b with Eq => true | _ => false end.

(** [a > b] on timestamps. *)
Definition datetime_gtb (a b : DateTime) : bool :=
  match datetime_compare a b with Gt => true | _ => false end.

(** [a <= b] on timestamps. *)
Definition datetime_leb (a b : DateTime) : bool := negb (datetime_gtb a b).

(** The later of two timestamps. *)
Definition datetime_max (a b : DateTime) : DateTime :=
  if datetime_gtb a b then a else b.

(** [datetime.datetime(d.year, d.month, d.day, h, m, s)]. *)
Definition combine_date_time (d : Date) (h m s : nat) : DateTime :=
  mkDateTime d h m s.

(** [datetime.datetime.strptime("1972/06/30", "%Y/%m/%d")]. *)
Definition early_default : DateTime := mkDateTime (mkDate 1972 6 30) 0 0 0.

End PyDate.

(* ===================================================================== *)
(** * The library calls *)
(* ===================================================================== *)

(** A regular file of the log folder: its path as [os.path.join(folder,
    item)] builds it, and its text. *)
Record File : Type := mkFile {
  fpath : string;
  ftext : string
}.

(** What the scripts ask of pandas and datetime.  [None] stands for a
    raised exception.
    - [read_csv f]: [pd.read_csv(file, sep=" ", comment="#", header=None)];
    - [strptime_yymmdd s]: [datetime.datetime.strptime(s, "%y%m%d").date()];
    - [to_datetime s]: [pd.to_datetime] on one string of the series (every
      row of an IIS log has the one format, so the series is read element
      by element);
    - [str_contains pat s]: the element of [Series.str.contains(pat)] for
      the string [s]; pandas searches for [pat] as a regular expression,
      and the patterns it accepts are the ones considered. *)
Record PyLib : Type := mkPyLib {
  read_csv : File -> option Table;
  strptime_yymmdd : string -> option Date;
  to_datetime : string -> option DateTime;
  str_contains : string -> string -> bool
}.

(* ===================================================================== *)
(** * Log rows *)
(* ===================================================================== *)

Record LogRow : Type := mkLogRow {
  log_date : Cell;
  log_time : Cell;
  s_ip : Cell;
  cs_method : Cell;
  cs_uri_stem : Cell;
  cs_uri_query : Cell;
  s_port : Cell;
  cs_username : Cell;
  c_ip : Cell;
  cs_user_agent : Cell;
  sc_status : Cell;
  sc_substatus : Cell;
  sc_win32_status : Cell;
  time_taken : Cell
}.

(** A frame with the fourteen named columns, or [pd.DataFrame()] when it
    is empty. *)
Definition DataFrame : Type := list LogRow.

(** [df.empty]. *)
Definition df_empty (df : DataFrame) : bool :=
  match df with [] => true | _ :: _ => false end.

Definition header : string :=
  "log_date log_time s_ip cs_method cs_uri_stem cs_uri_query s_port cs_username c_ip cs_user_agent sc_status sc_substatus sc_win32_status time_taken".

Definition columns : list string := PyStr.split PyStr.space header.

Definition row_of_cells (cs : list Cell) : option LogRow :=
  match cs with
  | [a; b; c; d; e; f; g; h; i; j; k; l; m; n] =>
      Some (mkLogRow a b c d e f g h i j k l m n)
  | _ => None
  end.

Fixpoint rows_of_cells (rows : list (list Cell)) : option DataFrame :=
  match rows with
  | [] => Some []
  | cs :: rest =>
      match row_of_cells cs, rows_of_cells rest with
      | Some r, Some df => Some (r :: df)
      | _, _ => None
      end
  end.

(** [df_tmp.columns = columns]: a [ValueError] unless the table has as
    many columns as there are names. *)
Definition set_columns (t : Table) : option DataFrame :=
  if t_ncols t =? List.length columns then rows_of_cells (t_rows t) else None.

(** What [df[col].str[:n]] makes of a cell of a column typed as text:
    its first [n] characters, a missing value staying missing. *)
Definition str_prefix (n : nat) (c : Cell) : Cell :=
  match c with NaN => NaN | Str s => Str (PyStr.prefix_n n s) end.

Definition truncate_cs_uri_stem (r : LogRow) : LogRow :=
  mkLogRow (log_date r) (log_time r) (s_ip r) (cs_method r)
           (str_prefix 499 (cs_uri_stem r)) (cs_uri_query r) (s_port r)
           (cs_username r) (c_ip r) (cs_user_agent r) (sc_status r)
           (sc_substatus r) (sc_win32_status r) (time_taken r).

Definition truncate_cs_uri_query (r : LogRow) : LogRow :=
  mkLogRow (log_date r) (log_time r) (s_ip r) (cs_method r)
           (cs_uri_stem r) (str_prefix 255 (cs_uri_query r)) (s_port r)
           (cs_username r) (c_ip r) (cs_user_agent r) (sc_status r)
           (sc_substatus r) (sc_win32_status r) (time_taken r).

Definition truncate_cs_username (r : LogRow) : LogRow :=
  mkLogRow (log_date r) (log_time r) (s_ip r) (cs_method r)
           (cs_uri_stem r) (cs_uri_query r) (s_port r)
           (str_prefix 255 (cs_username r)) (c_ip r) (cs_user_agent r)
           (sc_status r) (sc_substatus r) (sc_win32_status r) (time_taken r).

Definition truncate_cs_user_agent (r : LogRow) : LogRow :=
  mkLogRow (log_date r) (log_time r) (s_ip r) (cs_method r)
           (cs_uri_stem r) (cs_uri_query r) (s_port r)
           (cs_username r) (c_ip r) (str_prefix 399 (cs_user_agent r))
           (sc_status r) (sc_substatus r) (sc_win32_status r) (time_taken r).

(** What lines 225-228 make of the rows, one column after the other,
    when the [.str] accessor applies to the four columns. *)
Definition truncate (df : DataFrame) : DataFrame :=
  let df1 := map truncate_cs_uri_stem df in
  let df2 := map truncate_cs_uri_query df1 in
  let df3 := map truncate_cs_username df2 in
  map truncate_cs_user_agent df3.

(** The length of a cell, when it holds a string. *)
Definition cell_within (n : nat) (c : Cell) : Prop :=
  match c with NaN => True | Str s => String.length s <= n end.

(* ===================================================================== *)
(** * What a run writes: log records and printed lines *)
(* ===================================================================== *)

Inductive Message : Type :=
| MsgProcessingStarting
| MsgLoggingLevel
| MsgLastRecord (t : DateTime)
| MsgNoDateFound
| MsgDbError
| MsgReadingFolder
| MsgFilesFound (n : nat)
| MsgLoading (path : string)
| MsgHardWay
| MsgFilteringLaterThan (t : DateTime)
| MsgSkipping (path : string)
| MsgException
| MsgNoNewLogData
| MsgReducing
| MsgRunTimeToRead
| MsgRowsAboutToBeWritten (n : nat)
| MsgRunTimeToWrite
| MsgQuerying
| MsgWritingReport
| MsgReportPathMissing
| MsgNothingToReport
| MsgReportError
| MsgNoRowsForWriting
| MsgIPsFound (n : nat)
| MsgIPNotFound (ip : string)
| MsgNoSuccessfulLookups
| MsgNoIPsToLookup
| MsgTotalRunTime
| MsgProcessingComplete.

Inductive Event : Type :=
| LogInfo (m : Message)
| LogError (m : Message)
| Print (m : Message).

(** [logging.info(m); print(m)]. *)
Definition say (m : Message) : list Event := [LogInfo m; Print m].

(* ===================================================================== *)
(** * [readNewerLogs] *)
(* ===================================================================== *)

Module ReadNewer.
Import PyDate.

Section WithLib.
Variable L : PyLib.

(** [df_tmp['log_date'].astype(str) + " " + df_tmp['log_time']]. *)
Definition astype_str (c : Cell) : string :=
  match c with NaN => "nan" | Str s => s end.

Definition date_time_text (r : LogRow) : Cell :=
  match log_time r with
  | NaN => NaN
  | Str t => Str (astype_str (log_date r) ++ " " ++ t)%string
  end.

(** An element of the [log_datetime] column. *)
Inductive Stamp : Type :=
| Unparsed          (* [pd.to_datetime] raises *)
| NaT
| At (t : DateTime).

Definition row_datetime (r : LogRow) : Stamp :=
  match date_time_text r with
  | NaN => NaT
  | Str s => match to_datetime L s with
             | None => Unparsed
             | Some t => At t
             end
  end.

(** [pd.to_datetime(series)]: the whole column, or the exception. *)
Fixpoint to_datetime_column (df : DataFrame) : option (list Stamp) :=
  match df with
  | [] => Some []
  | r :: rest =>
      match row_datetime r, to_datetime_column rest with
      | Unparsed, _ => None
      | _, None => None
      | s, Some col => Some (s :: col)
      end
  end.

(** An element of [df_tmp['log_datetime'] > sdatetimeLastStored].  The
    watermark has whole seconds, so its text rendering denotes it. *)
Definition later_than (odatetimeLastStored : DateTime) (s : Stamp) : bool :=
  match s with
  | At t => datetime_gtb t odatetimeLastStored
  | _ => false
  end.

(** [df[mask]]. *)
Fixpoint boolean_index (df : DataFrame) (mask : list bool) : DataFrame :=
  match df, mask with
  | r :: df', b :: mask' =>
      if b then r :: boolean_index df' mask' else boolean_index df' mask'
  | _, _ => []
  end.

(** Lines 218-222 for the file whose date is the watermark's, once the
    date and time texts are put together. *)
Definition boundary_filter (odatetimeLastStored : DateTime) (df_tmp : DataFrame)
    : option DataFrame :=
  match to_datetime_column df_tmp with
  | None => None
  | Some log_datetime =>
      Some (boolean_index df_tmp (map (later_than odatetimeLastStored) log_datetime))
  end.

(** Lines 202-211: [read_csv], and the hard way when it or the column
    assignment raises; the column assignment of the hard way is outside
    any handler of the loop body. *)
Definition hard_way_used (file : File) : bool :=
  match read_csv L file with
  | Some t => match set_columns t with Some _ => false | None => true end
  | None => true
  end.

Definition load_file (file : File) : option DataFrame :=
  match read_csv L file with
  | Some t =>
      match set_columns t with
      | Some df => Some df
      | None =>
          set_columns (HardWay.readFileTheHardWay (Some (ftext file))
                                                  (List.length columns))
      end
  | None =>
      set_columns (HardWay.readFileTheHardWay (Some (ftext file))
                                              (List.length columns))
  end.

(** The table the frame of a file is made of: that of [read_csv] when
    it gets its column names, that of the hard way otherwise. *)
Definition loaded_table (file : File) : Table :=
  match read_csv L file with
  | Some t =>
      match set_columns t with
      | Some _ => t
      | None => HardWay.readFileTheHardWay (Some (ftext file)) (List.length columns)
      end
  | None => HardWay.readFileTheHardWay (Some (ftext file)) (List.length columns)
  end.

(** The positions of [cs_uri_stem], [cs_uri_query], [cs_username] and
    [cs_user_agent] among the columns. *)
Definition sliced_columns : list nat := [4; 5; 7; 9].

(** The [.str] accessor applies to the four columns of the frame of a
    file: each was typed as text when the file was read.  Selecting rows
    keeps the types of the columns. *)
Definition str_accessor_applies (file : File) : bool :=
  forallb (t_text (loaded_table file)) sliced_columns.

(** [... + " " + df_tmp['log_time']] adds a text to every value of the
    [log_time] column that is not missing: it raises a [TypeError] when
    the column was typed as numbers and holds a value. *)
Definition log_time_adds (file : File) (df_tmp : DataFrame) : bool :=
  t_text (loaded_table file) 1
  || forallb (fun r => negb (notna (log_time r))) df_tmp.

(** Lines 214-222 on the frame of a file. *)
Definition boundary_step (odatetimeLastStored : DateTime) (file : File)
    (df_tmp : DataFrame) : option DataFrame :=
  if log_time_adds file df_tmp then boundary_filter odatetimeLastStored df_tmp
  else None.

(** [file.rsplit('\\', 1)[-1][4:10]]. *)
Definition sfDate (file : File) : string :=
  PyStr.slice 4 10 (PyStr.rsplit_last PyStr.backslash (fpath file)).

Definition file_date (file : File) : option Date := strptime_yymmdd L (sfDate file).

(** One turn of the [for file in files] loop. *)
Inductive Turn : Type :=
| Raised
| Skipped
| Loaded (df_tmp : DataFrame).

(** Lines 225-228: [df_tmp[col].str[:n]] raises an [AttributeError] on a
    column that is not typed as text; otherwise the four columns are cut
    and the frame is appended to [frames]. *)
Definition slice_text_columns (text_typed : bool) (df_tmp : DataFrame) : Turn :=
  if text_typed then Loaded (truncate df_tmp) else Raised.

Definition process_file (odatetimeLastStored : DateTime) (file : File)
    : list Event * Turn :=
  match file_date file with
  | None => ([], Raised)
  | Some oFileDate =>
      if date_geb oFileDate (dt_date odatetimeLastStored) then
        let ev_load :=
          say (MsgLoading (fpath file))
          ++ (if hard_way_used file then say MsgHardWay else []) in
        match load_file file with
        | None => (ev_load, Raised)
        | Some df_tmp =>
            if date_eqb (dt_date odatetimeLastStored) oFileDate then
              let ev := ev_load ++ say (MsgFilteringLaterThan odatetimeLastStored) in
              match boundary_step odatetimeLastStored file df_tmp with
              | None => (ev, Raised)
              | Some df_new =>
                  (ev, slice_text_columns (str_accessor_applies file) df_new)
              end
            else (ev_load, slice_text_columns (str_accessor_applies file) df_tmp)
        end
      else (say (MsgSkipping (fpath file)), Skipped)
  end.

(** The loop: [frames] is the list built so far; [None] when a turn
    raised. *)
Fixpoint files_loop (odatetimeLastStored : DateTime) (files : list File)
    (frames : list DataFrame) : list Event * option (list DataFrame) :=
  match files with
  | [] => ([], Some frames)
  | file :: rest =>
      match process_file odatetimeLastStored file with
      | (ev, Raised) => (ev, None)
      | (ev, Skipped) =>
          let (ev', r) := files_loop odatetimeLastStored rest frames in
          (ev ++ ev', r)
      | (ev, Loaded df_tmp) =>
          let (ev', r) := files_loop odatetimeLastStored rest (frames ++ [df_tmp]) in
          (ev ++ ev', r)
      end
  end.

(** [readNewerLogs(folder, odatetimeLastStored)]; [folder] is given by
    the regular files [os.listdir] finds in it, in that order.  An
    exception anywhere ends in the function's handler, which logs it and
    returns [df_return], still the initial [pd.DataFrame()]. *)
Definition readNewerLogs (folder : list File) (odatetimeLastStored : DateTime)
    : list Event * DataFrame :=
  let ev_head := say MsgReadingFolder ++ say (MsgFilesFound (List.length folder)) in
  match files_loop odatetimeLastStored folder [] with
  | (ev, Some frames) => (ev_head ++ ev, List.concat frames)
  | (ev, None) => (ev_head ++ ev ++ [LogError MsgException], [])
  end.

(** The rows a run hands back. *)
Definition new_rows (folder : list File) (odatetimeLastStored : DateTime) : DataFrame :=
  snd (readNewerLogs folder odatetimeLastStored).


(** The latest timestamp over all the rows of a frame, of a file, of a
    folder. *)
Definition later_stamp (acc : option DateTime) (r : LogRow) : option DateTime :=
  match row_datetime r, acc with
  | At t, Some m => Some (datetime_max t m)
  | At t, None => Some t
  | _, _ => acc
  end.

Definition file_rows (file : File) : DataFrame :=
  match load_file file with Some df => df | None => [] end.

Definition latest_timestamp (folder : list File) : option DateTime :=
  fold_left later_stamp (List.concat (map file_rows folder)) None.

(** Every row is dated, and no earlier than the date in the name of the
    file that holds it. *)
Definition row_dated_from (d : Date) (r : LogRow) : bool :=
  match row_datetime r with
  | At t => date_geb (dt_date t) d
  | _ => false
  end.

Definition rows_match_file_date (file : File) : bool :=
  match file_date file with
  | Some d => forallb (row_dated_from d) (file_rows file)
  | None => true
  end.

(** No element of the timestamp column fails to parse. *)
Definition stamps_parse (df : DataFrame) : bool :=
  forallb (fun r => match row_datetime r with Unparsed => false | _ => true end) df.

End WithLib.
End ReadNewer.

(* ===================================================================== *)
(** * A reference instance of the library calls *)
(* ===================================================================== *)

(** Executable stand-ins used by the worked examples.  They follow the
    libraries on the inputs the examples use: ASCII file names, log texts
    without quotes, timestamps written [YYYY-MM-DD HH:MM:SS], and search
    patterns without regular-expression operators. *)
Module RefLib.
Import PyDate.

Definition digit (c : ascii) : option nat :=
  let n := nat_of_ascii c in
  if (48 <=? n) && (n <=? 57) then Some (n - 48) else None.

Fixpoint digits (k : nat) (s : list ascii) (acc : nat) : option (nat * list ascii) :=
  match k with
  | 0 => Some (acc, s)
  | S k' =>
      match s with
      | c :: rest =>
          match digit c with
          | Some d => digits k' rest (10 * acc + d)
          | None => None
          end
      | [] => None
      end
  end.

Definition leap (y : nat) : bool :=
  ((y mod 4 =? 0) && negb (y mod 100 =? 0)) || (y mod 400 =? 0).

Definition days_in_month (y m : nat) : nat :=
  match m with
  | 1 | 3 | 5 | 7 | 8 | 10 | 12 => 31
  | 4 | 6 | 9 | 11 => 30
  | 2 => if leap y then 29 else 28
  | _ => 0
  end.

Definition valid_date (d : Date) : bool :=
  (1 <=? month d) && (month d <=? 12)
  && (1 <=? day d) && (day d <=? days_in_month (year d) (month d)).

(** The alternatives of [%m], [1[0-2]|0[1-9]|[1-9]], in the order the
    regular expression tries them. *)
Definition month_matches (s : list ascii) : list (nat * list ascii) :=
  (match digits 2 s 0 with
   | Some (n, rest) => if ((10 <=? n) && (n <=? 12)) || ((1 <=? n) && (n <=? 9))
                       then [(n, rest)] else []
   | None => []
   end)
  ++ (match digits 1 s 0 with
      | Some (n, rest) => if 1 <=? n then [(n, rest)] else []
      | None => []
      end).

(** The alternatives of [%d], [3[0-1]|[1-2]\d|0[1-9]|[1-9]| [1-9]]. *)
Definition day_matches (s : list ascii) : list (nat * list ascii) :=
  (match digits 2 s 0 with
   | Some (n, rest) => if (1 <=? n) && (n <=? 31) then [(n, rest)] else []
   | None => []
   end)
  ++ (match digits 1 s 0 with
      | Some (n, rest) => if 1 <=? n then [(n, rest)] else []
      | None => []
      end)
  ++ (match s with
      | c :: rest =>
          if Ascii.eqb c " "%char then
            match digits 1 rest 0 with
            | Some (n, rest') => if 1 <=? n then [(n, rest')] else []
            | None => []
            end
          else []
      | [] => []
      end).

(** The first way to match month then day. *)
Fixpoint first_month_day (ms : list (nat * list ascii))
    : option (nat * nat * list ascii) :=
  match ms with
  | [] => None
  | (m, rest) :: ms' =>
      match day_matches rest with
      | (d, rest') :: _ => Some (m, d, rest')
      | [] => first_month_day ms'
      end
  end.

(** [datetime.datetime.strptime(s, "%y%m%d").date()]: two-digit years up
    to 68 are in 2000, the others in 1900; text left over after the match
    and days that the month does not have raise. *)
Definition strptime (s : string) : option Date :=
  match digits 2 (list_ascii_of_string s) 0 with
  | None => None
  | Some (yy, rest) =>
      match first_month_day (month_matches rest) with
      | Some (m, d, []) =>
          let dt := mkDate (if yy <=? 68 then yy + 2000 else yy + 1900) m d in
          if valid_date dt then Some dt else None
      | _ => None
      end
  end.

Definition expect (c : ascii) (s : list ascii) : option (list ascii) :=
  match s with
  | a :: rest => if Ascii.eqb a c then Some rest else None
  | [] => None
  end.

(** [YYYY-MM-DD HH:MM:SS]. *)
Definition iso_datetime (s : string) : option DateTime :=
  match digits 4 (list_ascii_of_string s) 0 with
  | Some (y, s1) =>
  match expect "-" s1 with Some s2 =>
  match digits 2 s2 0 with Some (mo, s3) =>
  match expect "-" s3 with Some s4 =>
  match digits 2 s4 0 with Some (d, s5) =>
  match expect " " s5 with Some s6 =>
  match digits 2 s6 0 with Some (h, s7) =>
  match expect ":" s7 with Some s8 =>
  match digits 2 s8 0 with Some (mi, s9) =>
  match expect ":" s9 with Some s10 =>
  match digits 2 s10 0 with Some (se, []) =>
    if valid_date (mkDate y mo d) && (h <? 24) && (mi <? 60) && (se <? 60)
    then Some (mkDateTime (mkDate y mo d) h mi se) else None
  | _ => None end | None => None end | None => None end | None => None end
  | None => None end | None => None end | None => None end | None => None end
  | None => None end | None => None end
  | None => None
  end.

(** Values [read_csv] reads as missing. *)
Definition na_values : list string :=
  [""; "#N/A"; "#N/A N/A"; "#NA"; "-1.#IND"; "-1.#QNAN"; "-NaN"; "-nan";
   "1.#IND"; "1.#QNAN"; "<NA>"; "N/A"; "NA"; "NULL"; "NaN"; "None"; "n/a";
   "nan"; "null"].

Definition csv_cell (s : string) : Cell :=
  if existsb (String.eqb s) na_values then NaN else Str s.

(** A line without its newline and without what follows a [#]. *)
Fixpoint csv_data (s : string) : string :=
  match s with
  | EmptyString => EmptyString
  | String c rest =>
      if Ascii.eqb c PyStr.newline || Ascii.eqb c "#"%char then EmptyString
      else String c (csv_data rest)
  end.

(** Texts [read_csv] reads as numbers: an optional sign, digits with at
    most one point, and at least one digit. *)
Fixpoint digits_and_point (points seen : nat) (s : list ascii) : bool :=
  match s with
  | [] => 0 <? seen
  | c :: rest =>
      match digit c with
      | Some _ => digits_and_point points (S seen) rest
      | None =>
          Ascii.eqb c "."%char && (points =? 0) && digits_and_point (S points) seen rest
      end
  end.

Definition numeric_text (s : string) : bool :=
  match list_ascii_of_string s with
  | c :: rest =>
      if Ascii.eqb c "-"%char || Ascii.eqb c "+"%char
      then digits_and_point 0 0 rest
      else digits_and_point 0 0 (c :: rest)
  | [] => false
  end.

(** A column is typed as text when one of its cells is neither missing
    nor a number. *)
Definition text_cell (c : Cell) : bool :=
  match c with NaN => false | Str s => negb (numeric_text s) end.

Definition text_column (rows : list (list Cell)) (i : nat) : bool :=
  existsb (fun r => text_cell (nth i r NaN)) rows.

Fixpoint pad (n : nat) (cs : list Cell) : list Cell :=
  match n, cs with
  | 0, _ => []
  | S n', [] => NaN :: pad n' []
  | S n', c :: cs' => c :: pad n' cs'
  end.

(** [pd.read_csv(file, sep=" ", comment="#", header=None)] on plain
    texts: blank and comment lines are skipped, the first row fixes the
    number of columns, shorter rows are filled with missing values, a
    longer row or a text without any row raises. *)
Definition plain_read_csv (file : File) : option Table :=
  let data := filter (fun l => negb (String.eqb l ""))
                     (map csv_data (TextFile.readlines (ftext file))) in
  let rows := map (fun l => map csv_cell (PyStr.split PyStr.space l)) data in
  match rows with
  | [] => None
  | first :: _ =>
      let n := List.length first in
      if forallb (fun r => List.length r <=? n) rows
      then Some (mkTable n (map (pad n) rows) (text_column (map (pad n) rows)))
      else None
  end.

Definition ref_lib : PyLib :=
  mkPyLib plain_read_csv strptime iso_datetime PyStr.contains.

End RefLib.

(* ===================================================================== *)
(** * Facts about dates *)
(* ===================================================================== *)

Module DateFacts.
Import PyDate.

Definition date_after (a b : Date) : Prop :=
  year b < year a
  \/ (year a = year b
      /\ (month b < month a \/ (month a = month b /\ day b < day a))).

Definition same_date (a b : Date) : Prop :=
  year a = year b /\ month a = month b /\ day a = day b.

Definition clock_after (a b : DateTime) : Prop :=
  hour b < hour a
  \/ (hour a = hour b
      /\ (minute b < minute a \/ (minute a = minute b /\ second b < second a))).

Lemma lex_gt (c k : comparison) : lex c k = Gt <-> c = Gt \/ (c = Eq /\ k = Gt).
Proof. destruct c; simpl; intuition congruence. Qed.

Lemma lex_eq (c k : comparison) : lex c k = Eq <-> c = Eq /\ k = Eq.
Proof. destruct c; simpl; intuition congruence. Qed.

Lemma date_gt_iff (a b : Date) : date_compare a b = Gt <-> date_after a b.
Proof.
  unfold date_compare, date_after.
  rewrite !lex_gt, !Nat.compare_gt_iff, !Nat.compare_eq_iff. tauto.
Qed.

Lemma date_eq_iff (a b : Date) : date_compare a b = Eq <-> same_date a b.
Proof.
  unfold date_compare, same_date.
  rewrite !lex_eq, !Nat.compare_eq_iff. tauto.
Qed.

Lemma date_geb_iff (a b : Date) :
  date_geb a b = true <-> date_after a b \/ same_date a b.
Proof.
  unfold date_geb. rewrite <- date_gt_iff, <- date_eq_iff.
  destruct (date_compare a b); intuition congruence.
Qed.

Lemma date_eqb_iff (a b : Date) : date_eqb a b = true <-> same_date a b.
Proof.
  unfold date_eqb. rewrite <- date_eq_iff.
  destruct (date_compare a b); intuition congruence.
Qed.

Lemma datetime_gtb_iff (a b : DateTime) :
  datetime_gtb a b = true
  <-> date_after (dt_date a) (dt_date b)
      \/ (same_date (dt_date a) (dt_date b) /\ clock_after a b).
Proof.
  unfold datetime_gtb, datetime_compare, clock_after.
  rewrite <- date_gt_iff, <- date_eq_iff.
  transitivity (lex (date_compare (dt_date a) (dt_date b))
                    (lex (hour a ?= hour b)
                         (lex (minute a ?= minute b) (second a ?= second b))) = Gt).
  - match goal with |- context [match ?c with _ => _ end] => destruct c end;
      intuition congruence.
  - rewrite !lex_gt, !Nat.compare_gt_iff, !Nat.compare_eq_iff. tauto.
Qed.

Lemma datetime_gtb_false_iff (a b : DateTime) :
  datetime_gtb a b = false
  <-> ~ (date_after (dt_date a) (dt_date b)
         \/ (same_date (dt_date a) (dt_date b) /\ clock_after a b)).
Proof.
  rewrite <- datetime_gtb_iff. destruct (datetime_gtb a b); intuition congruence.
Qed.

Ltac dates :=
  repeat match goal with
         | H : date_geb _ _ = true |- _ => apply date_geb_iff in H
         | H : date_eqb _ _ = true |- _ => apply date_eqb_iff in H
         | H : date_eqb _ _ = false |- _ =>
             apply not_true_iff_false in H; rewrite date_eqb_iff in H
         | H : date_geb _ _ = false |- _ =>
             apply not_true_iff_false in H; rewrite date_geb_iff in H
         | H : datetime_gtb _ _ = true |- _ => apply datetime_gtb_iff in H
         | H : datetime_gtb _ _ = false |- _ => apply datetime_gtb_false_iff in H
         | |- datetime_gtb _ _ = true => apply datetime_gtb_iff
         | |- datetime_gtb _ _ = false => apply datetime_gtb_false_iff
         | |- date_geb _ _ = true => apply date_geb_iff
         | |- date_eqb _ _ = true => apply date_eqb_iff
         end;
  unfold date_after, same_date, clock_after in *.


(** Later day, later timestamp. *)
Lemma later_day_later_stamp (t w : DateTime) (d : Date) :
  date_geb (dt_date t) d = true ->
  date_geb d (dt_date w) = true ->
  date_eqb (dt_date w) d = false ->
  datetime_gtb t w = true.
Proof. intros H1 H2 H3. dates. lia. Qed.

Lemma datetime_le_trans (a b c : DateTime) :
  datetime_gtb a b = false -> datetime_gtb b c = false -> datetime_gtb a c = false.
Proof. intros H1 H2. dates. lia. Qed.

Lemma datetime_max_l (a b : DateTime) : datetime_gtb a (datetime_max a b) = false.
Proof.
  unfold datetime_max. destruct (datetime_gtb a b) eqn:E; [|exact E].
  dates. lia.
Qed.

Lemma datetime_max_r (a b : DateTime) : datetime_gtb b (datetime_max a b) = false.
Proof.
  unfold datetime_max. destruct (datetime_gtb a b) eqn:E; dates; lia.
Qed.


End DateFacts.

(* ===================================================================== *)
(** * Facts about [readNewerLogs] *)
(* ===================================================================== *)

Module ReadNewerFacts.
Import PyDate DateFacts ReadNewer.

Section WithLib.
Variable L : PyLib.

(** ** The boundary filter *)

Lemma to_datetime_column_parses (df : DataFrame) :
  stamps_parse L df = true ->
  to_datetime_column L df = Some (map (row_datetime L) df).
Proof.
  induction df as [|r df IH]; simpl; [reflexivity|].
  intros H. apply andb_true_iff in H. destruct H as [Hr Hdf].
  rewrite (IH Hdf). destruct (row_datetime L r); [discriminate| |]; reflexivity.
Qed.

Lemma to_datetime_column_raises (df : DataFrame) :
  stamps_parse L df = false -> to_datetime_column L df = None.
Proof.
  induction df as [|r df IH]; simpl; [discriminate|].
  intros H. apply andb_false_iff in H.
  destruct (row_datetime L r); [reflexivity| |];
    (destruct H as [H|H]; [discriminate|]; now rewrite (IH H)).
Qed.

Lemma boolean_index_map (df : DataFrame) (p : LogRow -> bool) :
  boolean_index df (map p df) = filter p df.
Proof.
  induction df as [|r df IH]; simpl; [reflexivity|].
  rewrite IH. reflexivity.
Qed.

(** The rows the boundary filter keeps. *)
Definition newer (wm : DateTime) (r : LogRow) : bool :=
  later_than wm (row_datetime L r).

Lemma boundary_filter_parses (wm : DateTime) (df : DataFrame) :
  stamps_parse L df = true ->
  boundary_filter L wm df = Some (filter (newer wm) df).
Proof.
  intros H. unfold boundary_filter. rewrite (to_datetime_column_parses _ H).
  rewrite map_map. now rewrite boolean_index_map.
Qed.

Lemma boundary_step_some (wm : DateTime) (file : File) (df df' : DataFrame) :
  boundary_step L wm file df = Some df' -> boundary_filter L wm df = Some df'.
Proof.
  unfold boundary_step. destruct (log_time_adds L file df); [trivial|discriminate].
Qed.

Lemma boundary_filter_some (wm : DateTime) (df df' : DataFrame) :
  boundary_filter L wm df = Some df' -> df' = filter (newer wm) df.
Proof.
  destruct (stamps_parse L df) eqn:E.
  - rewrite (boundary_filter_parses _ _ E). congruence.
  - unfold boundary_filter. rewrite (to_datetime_column_raises _ E). discriminate.
Qed.

(** ** The loop *)

Lemma files_loop_raises (wm : DateTime) (folder : list File) (file : File) :
  In file folder -> file_date L file = None ->
  forall frames, snd (files_loop L wm folder frames) = None.
Proof.
  intros Hin Hbad. induction folder as [|f rest IH]; [contradiction|].
  intros frames. simpl.
  destruct (process_file L wm f) as [ev turn] eqn:E.
  destruct Hin as [->|Hin].
  - unfold process_file in E. rewrite Hbad in E. inversion E. reflexivity.
  - destruct turn; [reflexivity| |].
    + specialize (IH Hin frames).
      destruct (files_loop L wm rest frames); simpl in *. exact IH.
    + specialize (IH Hin (frames ++ [df_tmp])).
      destruct (files_loop L wm rest (frames ++ [df_tmp])); simpl in *. exact IH.
Qed.



Lemma new_rows_of_loop (wm : DateTime) (folder : list File) :
  new_rows L folder wm
  = match snd (files_loop L wm folder []) with
    | Some frames => List.concat frames
    | None => []
    end.
Proof.
  unfold new_rows, readNewerLogs.
  destruct (files_loop L wm folder []) as [ev [frames|]]; reflexivity.
Qed.






(** A file read the hard way of which no line is kept: the column
    assignment of line 211 raises, and with it the run. *)
Lemma fallback_without_rows_raises (wm : DateTime) (file : File) (d : Date) :
  file_date L file = Some d -> date_geb d (dt_date wm) = true ->
  hard_way_used L file = true ->
  HardWay.tolerant_parse (List.length columns) (ftext file) = [] ->
  snd (process_file L wm file) = Raised.
Proof.
  intros Hd Hge Hhard Hnone.
  assert (Hload : load_file L file = None).
  { assert (Hfb : set_columns (HardWay.readFileTheHardWay
                                 (Some (ftext file)) (List.length columns)) = None).
    { unfold HardWay.readFileTheHardWay. rewrite HardWay.hard_way_lines, Hnone.
      reflexivity. }
    unfold load_file, hard_way_used in *.
    destruct (read_csv L file) as [t|]; [|exact Hfb].
    destruct (set_columns t); [discriminate|exact Hfb]. }
  unfold process_file. now rewrite Hd, Hge, Hload.
Qed.

(** ** The latest timestamp bounds every row *)

Lemma later_stamp_bounds (rows : DataFrame) :
  forall (acc : option DateTime) (m : DateTime),
    fold_left (later_stamp L) rows acc = Some m ->
    (forall a, acc = Some a -> datetime_gtb a m = false)
    /\ (forall r t, In r rows -> row_datetime L r = At t -> datetime_gtb t m = false).
Proof.
  induction rows as [|r rows IH]; intros acc m Hm; simpl in Hm.
  - split; [|contradiction].
    intros a ->. inversion Hm; subst. dates. lia.
  - destruct (IH _ _ Hm) as [Hacc Hrows]. split.
    + intros a ->. unfold later_stamp in Hacc.
      destruct (row_datetime L r) as [| |t]; try (now apply Hacc).
      apply datetime_le_trans with (b := datetime_max t a);
        [apply datetime_max_r|now apply Hacc].
    + intros r' t [<-|Hin] Ht; [|now apply (Hrows r')].
      unfold later_stamp in Hacc. rewrite Ht in Hacc.
      destruct acc as [a|]; [|now apply Hacc].
      apply datetime_le_trans with (b := datetime_max t a);
        [apply datetime_max_l|now apply Hacc].
Qed.

Lemma latest_timestamp_bounds (folder : list File) (wm : DateTime) :
  latest_timestamp L folder = Some wm ->
  forall file r t, In file folder -> In r (file_rows L file) ->
                   row_datetime L r = At t -> datetime_gtb t wm = false.
Proof.
  intros Hm file r t Hf Hr Ht.
  destruct (later_stamp_bounds _ _ _ Hm) as [_ H]. apply (H r); [|exact Ht].
  apply in_concat. exists (file_rows L file). split; [|exact Hr].
  now apply in_map.
Qed.

(** A frame with no row newer than the watermark is filtered away. *)
Lemma filter_newer_nil (wm : DateTime) (df : DataFrame) :
  (forall r t, In r df -> row_datetime L r = At t -> datetime_gtb t wm = false) ->
  filter (newer wm) df = [].
Proof.
  induction df as [|r df IH]; intros H; simpl; [reflexivity|].
  rewrite IH by (intros r' t Hin; apply H; now right).
  unfold newer, later_than.
  destruct (row_datetime L r) as [| |t] eqn:E; try reflexivity.
  now rewrite (H r t (or_introl eq_refl) E).
Qed.

(** When the watermark is the latest timestamp and rows carry the date of
    their file, no turn of the loop contributes a row. *)
Lemma process_file_nothing_new (folder : list File) (wm : DateTime) (file : File) :
  latest_timestamp L folder = Some wm ->
  In file folder ->
  rows_match_file_date L file = true ->
  forall df, snd (process_file L wm file) = Loaded df -> df = [].
Proof.
  intros Hm Hin Hdates df. unfold process_file.
  pose proof (latest_timestamp_bounds _ _ Hm file) as Hb.
  unfold rows_match_file_date, file_rows in *.
  destruct (file_date L file) as [d|]; [|discriminate].
  destruct (date_geb d (dt_date wm)) eqn:Hge; [|discriminate].
  destruct (load_file L file) as [df_tmp|]; [|discriminate].
  destruct (date_eqb (dt_date wm) d) eqn:Heq.
  - destruct (boundary_step L wm file df_tmp) as [df_new|] eqn:Hbs; [|discriminate].
    pose proof (boundary_step_some _ _ _ _ Hbs) as Hbf.
    unfold slice_text_columns.
    destruct (str_accessor_applies L file); [|discriminate].
    simpl. intros H. inversion H.
    rewrite (boundary_filter_some _ _ _ Hbf).
    rewrite filter_newer_nil; [reflexivity|].
    intros r t Hr Ht. now apply (Hb r t Hin Hr).
  - unfold slice_text_columns.
    destruct (str_accessor_applies L file); [|discriminate].
    simpl. intros H. inversion H.
    destruct df_tmp as [|r rest]; [reflexivity|exfalso].
    simpl in Hdates. apply andb_true_iff in Hdates. destruct Hdates as [Hr _].
    unfold row_dated_from in Hr.
    destruct (row_datetime L r) as [| |t] eqn:Ht; try discriminate.
    pose proof (Hb r t Hin (or_introl eq_refl) Ht) as Hle.
    pose proof (later_day_later_stamp t wm d Hr Hge Heq) as Hgt. congruence.
Qed.

Lemma files_loop_nothing_new (folder : list File) (wm : DateTime) :
  latest_timestamp L folder = Some wm ->
  forall files, incl files folder ->
    forallb (rows_match_file_date L) files = true ->
    forall frames frames',
      snd (files_loop L wm files frames) = Some frames' ->
      List.concat frames' = List.concat frames.
Proof.
  intros Hm. induction files as [|f rest IH]; intros Hincl Hdates frames frames'.
  - simpl. intros H. now inversion H.
  - simpl in Hdates. apply andb_true_iff in Hdates. destruct Hdates as [Hf Hrest].
    assert (Hin : In f folder) by (apply Hincl; now left).
    assert (Hincl' : incl rest folder) by (intros x Hx; apply Hincl; now right).
    pose proof (process_file_nothing_new _ _ _ Hm Hin Hf) as Hnil.
    simpl. destruct (process_file L wm f) as [ev [| |df]]; simpl in Hnil.
    + discriminate.
    + specialize (IH Hincl' Hrest frames frames').
      destruct (files_loop L wm rest frames). exact IH.
    + specialize (IH Hincl' Hrest (frames ++ [df]) frames').
      destruct (files_loop L wm rest (frames ++ [df])). simpl in *.
      intros H. rewrite (IH H). rewrite (Hnil df eq_refl).
      rewrite concat_app. simpl. now rewrite app_nil_r.
Qed.

(** ** Truncation *)

Definition clamp_row (r : LogRow) : LogRow :=
  truncate_cs_user_agent
    (truncate_cs_username (truncate_cs_uri_query (truncate_cs_uri_stem r))).

Lemma truncate_rowwise (df : DataFrame) : truncate df = map clamp_row df.
Proof. unfold truncate. rewrite !map_map. reflexivity. Qed.

Lemma prefix_n_length (n : nat) (s : string) :
  String.length (PyStr.prefix_n n s) <= n.
Proof.
  unfold PyStr.prefix_n. revert s.
  induction n as [|n IH]; intros [|c s]; simpl; try lia.
  specialize (IH s). lia.
Qed.

Lemma str_prefix_within (n : nat) (c : Cell) : cell_within n (str_prefix n c).
Proof. destruct c; simpl; [exact I|apply prefix_n_length]. Qed.

(** The widths of the four clamped columns. *)
Definition row_bounded (r : LogRow) : Prop :=
  cell_within 499 (cs_uri_stem r) /\ cell_within 255 (cs_uri_query r)
  /\ cell_within 255 (cs_username r) /\ cell_within 399 (cs_user_agent r).

(** [c'] is [c] cut to its first [n] characters: a missing cell stays
    missing, and a text keeps its first [n] characters, all of them when
    it has no more. *)
Definition cut_to (n : nat) (c c' : Cell) : Prop :=
  match c, c' with
  | NaN, NaN => True
  | Str s, Str kept =>
      String.length kept = Nat.min n (String.length s)
      /\ exists dropped, s = (kept ++ dropped)%string
  | _, _ => False
  end.

(** What slicing does to the four columns, and what it leaves alone. *)
Definition sliced_from (r r' : LogRow) : Prop :=
  cut_to 499 (cs_uri_stem r) (cs_uri_stem r')
  /\ cut_to 255 (cs_uri_query r) (cs_uri_query r')
  /\ cut_to 255 (cs_username r) (cs_username r')
  /\ cut_to 399 (cs_user_agent r) (cs_user_agent r')
  /\ log_date r' = log_date r /\ log_time r' = log_time r
  /\ s_ip r' = s_ip r /\ cs_method r' = cs_method r
  /\ s_port r' = s_port r /\ c_ip r' = c_ip r
  /\ sc_status r' = sc_status r /\ sc_substatus r' = sc_substatus r
  /\ sc_win32_status r' = sc_win32_status r /\ time_taken r' = time_taken r.

Lemma prefix_n_cut (n : nat) (s : string) :
  String.length (PyStr.prefix_n n s) = Nat.min n (String.length s)
  /\ exists dropped, s = (PyStr.prefix_n n s ++ dropped)%string.
Proof.
  unfold PyStr.prefix_n. revert s.
  induction n as [|n IH]; intros [|c s]; simpl.
  - split; [reflexivity|]. now exists EmptyString.
  - split; [reflexivity|]. now exists (String c s).
  - split; [reflexivity|]. now exists EmptyString.
  - destruct (IH s) as [Hlen [dropped Hs]]. split; [now rewrite Hlen|].
    exists dropped. now rewrite <- Hs.
Qed.

Lemma str_prefix_cut (n : nat) (c : Cell) : cut_to n c (str_prefix n c).
Proof. destruct c as [|s]; simpl; [exact I|apply prefix_n_cut]. Qed.

Lemma clamp_row_bounded (r : LogRow) : row_bounded (clamp_row r).
Proof. repeat split; simpl; apply str_prefix_within. Qed.

Lemma clamp_row_from (r : LogRow) : sliced_from r (clamp_row r).
Proof.
  unfold sliced_from. simpl.
  repeat (split; [first [apply str_prefix_cut|reflexivity]|]). reflexivity.
Qed.

Lemma truncate_bounded (df : DataFrame) : Forall row_bounded (truncate df).
Proof.
  rewrite truncate_rowwise. induction df as [|r df IH]; simpl; constructor;
    [apply clamp_row_bounded|exact IH].
Qed.

Lemma process_file_bounded (wm : DateTime) (file : File) (df : DataFrame) :
  snd (process_file L wm file) = Loaded df -> Forall row_bounded df.
Proof.
  unfold process_file.
  destruct (file_date L file) as [d|]; [|discriminate].
  destruct (date_geb d (dt_date wm)); [|discriminate].
  destruct (load_file L file) as [df_tmp|]; [|discriminate].
  unfold slice_text_columns.
  destruct (date_eqb (dt_date wm) d).
  - destruct (boundary_step L wm file df_tmp); [|discriminate].
    destruct (str_accessor_applies L file); [|discriminate].
    simpl. intros H. inversion H. apply truncate_bounded.
  - destruct (str_accessor_applies L file); [|discriminate].
    simpl. intros H. inversion H. apply truncate_bounded.
Qed.

Lemma files_loop_bounded (wm : DateTime) (files : list File) :
  forall frames frames' : list DataFrame,
    Forall (Forall row_bounded) frames ->
    snd (files_loop L wm files frames) = Some frames' ->
    Forall (Forall row_bounded) frames'.
Proof.
  induction files as [|f rest IH]; intros frames frames' Hb; simpl.
  - intros H. inversion H. subst. exact Hb.
  - pose proof (process_file_bounded wm f) as Hf.
    destruct (process_file L wm f) as [ev [| |df]]; simpl in Hf.
    + discriminate.
    + specialize (IH frames frames' Hb).
      destruct (files_loop L wm rest frames). exact IH.
    + assert (Hb' : Forall (Forall row_bounded) (frames ++ [df] : list DataFrame)).
      { apply Forall_app. split; [exact Hb|]. constructor; [now apply Hf|constructor]. }
      specialize (IH (frames ++ [df]) frames' Hb').
      destruct (files_loop L wm rest (frames ++ [df])). exact IH.
Qed.

Lemma new_rows_bounded (folder : list File) (wm : DateTime) :
  Forall row_bounded (new_rows L folder wm).
Proof.
  rewrite new_rows_of_loop.
  pose proof (files_loop_bounded wm folder [] ) as H.
  destruct (snd (files_loop L wm folder [])) as [frames|]; [|constructor].
  specialize (H frames (Forall_nil _) eq_refl).
  apply Forall_forall. intros r Hr. apply in_concat in Hr.
  destruct Hr as [df [Hdf Hr]].
  rewrite Forall_forall in H. specialize (H df Hdf).
  rewrite Forall_forall in H. now apply H.
Qed.

End WithLib.
End ReadNewerFacts.

(* ===================================================================== *)
(** * The method and URI filters of the main script *)
(* ===================================================================== *)

Module Filters.

Definition row_cells (r : LogRow) : list Cell :=
  [log_date r; log_time r; s_ip r; cs_method r; cs_uri_stem r; cs_uri_query r;
   s_port r; cs_username r; c_ip r; cs_user_agent r; sc_status r;
   sc_substatus r; sc_win32_status r; time_taken r].

(** No cell of the row is missing. *)
Definition row_complete (r : LogRow) : bool := forallb notna (row_cells r).

Definition nan_row : LogRow :=
  mkLogRow NaN NaN NaN NaN NaN NaN NaN NaN NaN NaN NaN NaN NaN NaN.

(** [df.where(filter)]: a row whose mask is false has every cell
    replaced by the missing value. *)
Fixpoint df_where (df : DataFrame) (mask : list bool) : DataFrame :=
  match df, mask with
  | r :: df', b :: mask' => (if b then r else nan_row) :: df_where df' mask'
  | _, _ => []
  end.

(** [df.dropna()]: rows with a missing cell go. *)
Definition dropna (df : DataFrame) : DataFrame := filter row_complete df.

Section WithLib.
Variable L : PyLib.

(** An element of [df["cs_method"] == method_to_filter]. *)
Definition method_is (method_to_filter : string) (r : LogRow) : bool :=
  cell_eqb (cs_method r) (Str method_to_filter).

(** An element of [df["cs_uri_stem"].str.contains(uri_to_filter)]; on a
    missing cell the answer is missing, which [where] takes for false. *)
Definition uri_has (uri_to_filter : string) (r : LogRow) : bool :=
  match cs_uri_stem r with
  | Str s => str_contains L uri_to_filter s
  | NaN => false
  end.

(** Lines 375-395. *)
Definition filter_stage (method_to_filter uri_to_filter : string)
    (df_logs : DataFrame) : DataFrame :=
  if (0 <? String.length method_to_filter) && (0 <? String.length uri_to_filter) then
    let filter := map (method_is method_to_filter) df_logs in
    let df_logs_Method := dropna (df_where df_logs filter) in
    let filter := map (uri_has uri_to_filter) df_logs_Method in
    dropna (df_where df_logs_Method filter)
  else if 0 <? String.length method_to_filter then
    let filter := map (method_is method_to_filter) df_logs in
    dropna (df_where df_logs filter)
  else if 0 <? String.length uri_to_filter then
    let filter := map (uri_has uri_to_filter) df_logs in
    dropna (df_where df_logs filter)
  else df_logs.

(** ** Facts *)

Lemma nan_row_incomplete : row_complete nan_row = false.
Proof. reflexivity. Qed.

Lemma where_dropna (df : DataFrame) (p : LogRow -> bool) :
  dropna (df_where df (map p df)) = filter (fun r => p r && row_complete r) df.
Proof.
  unfold dropna. induction df as [|r df IH]; [reflexivity|].
  cbn [map df_where filter]. rewrite IH.
  destruct (p r); [reflexivity|]. now rewrite nan_row_incomplete.
Qed.

Lemma filter_filter (p q : LogRow -> bool) (df : DataFrame) :
  filter q (filter p df) = filter (fun r => p r && q r) df.
Proof.
  induction df as [|r df IH]; simpl; [reflexivity|].
  destruct (p r); simpl; [|exact IH]. destruct (q r); now rewrite IH.
Qed.

Lemma filter_ext_bool (p q : LogRow -> bool) (df : DataFrame) :
  (forall r, p r = q r) -> filter p df = filter q df.
Proof. intros H. apply filter_ext. exact H. Qed.

Lemma filter_stage_both (m u : string) (df : DataFrame) :
  m <> EmptyString -> u <> EmptyString ->
  filter_stage m u df
  = filter (fun r => method_is m r && uri_has u r && row_complete r) df.
Proof.
  intros Hm Hu. unfold filter_stage.
  destruct m as [|a m]; [congruence|]. destruct u as [|b u]; [congruence|].
  cbn [String.length Nat.ltb Nat.leb andb].
  rewrite !where_dropna, filter_filter. apply filter_ext_bool. intros r.
  destruct (method_is (String a m) r), (uri_has (String b u) r), (row_complete r);
    reflexivity.
Qed.

Lemma filter_stage_method (m : string) (df : DataFrame) :
  m <> EmptyString ->
  filter_stage m EmptyString df = filter (fun r => method_is m r && row_complete r) df.
Proof.
  intros Hm. unfold filter_stage. destruct m as [|a m]; [congruence|].
  cbn [String.length Nat.ltb Nat.leb andb]. apply where_dropna.
Qed.

Lemma filter_stage_uri (u : string) (df : DataFrame) :
  u <> EmptyString ->
  filter_stage EmptyString u df = filter (fun r => uri_has u r && row_complete r) df.
Proof.
  intros Hu. unfold filter_stage. destruct u as [|b u]; [congruence|].
  cbn [String.length Nat.ltb Nat.leb andb]. apply where_dropna.
Qed.

Lemma filter_stage_none (df : DataFrame) :
  filter_stage EmptyString EmptyString df = df.
Proof. reflexivity. Qed.

(** Composing the two filters selects what both select. *)
Lemma filter_stage_in_both (m u : string) (df : DataFrame) (r : LogRow) :
  m <> EmptyString -> u <> EmptyString ->
  (In r (filter_stage m u df)
   <-> In r (filter_stage m EmptyString df) /\ In r (filter_stage EmptyString u df)).
Proof.
  intros Hm Hu.
  rewrite filter_stage_both, filter_stage_method, filter_stage_uri by assumption.
  rewrite !filter_In, !andb_true_iff. tauto.
Qed.

End WithLib.
End Filters.

(* ===================================================================== *)
(** * Storage: the watermark reader and the geo-diff resolver *)
(* ===================================================================== *)

(** What connecting, executing and fetching come to: the rows, or an
    exception ([psycopg2.Error], or any other). *)
Inductive Query (A : Type) : Type :=
| DbError
| OtherError
| Fetched (rows : list A).
Arguments DbError {A}.
Arguments OtherError {A}.
Arguments Fetched {A} rows.

(** [datetime.time]. *)
Record TimeOfDay : Type := mkTime {
  t_hour : nat;
  t_minute : nat;
  t_second : nat
}.

Module Storage.
Import PyDate.

(** [readLastDateTimeProcessed]: the first fetched row combined into a
    timestamp, the early default when nothing was fetched, [None] in
    both handlers.  The handler of [psycopg2.Error] calls
    [logging.error] with an argument and no placeholder for it: logging
    cannot format the record and writes none, so of that handler only the
    printed line is left. *)
Definition readLastDateTimeProcessed (q : Query (Date * TimeOfDay))
    : list Event * option DateTime :=
  match q with
  | Fetched ((oLogDate, oLogTime) :: _) =>
      let oLogDateTime :=
        combine_date_time oLogDate (t_hour oLogTime) (t_minute oLogTime)
                          (t_second oLogTime) in
      (say (MsgLastRecord oLogDateTime), Some oLogDateTime)
  | Fetched [] => (say MsgNoDateFound, Some early_default)
  | DbError => ([Print MsgDbError], None)
  | OtherError => ([LogError MsgException; Print MsgException], None)
  end.

(** The loop [for row in rows: returnList.append(row[0])]. *)
Fixpoint append_all (rows : list string) (returnList : list string) : list string :=
  match rows with
  | [] => returnList
  | row :: rest => append_all rest (returnList ++ [row])
  end.

(** [getIPsToLookup]: both handlers return [returnList], which is still
    the empty list when connecting or querying raised.  As above, the
    handler of [psycopg2.Error] leaves a printed line and no log
    record. *)
Definition getIPsToLookup (q : Query string) : list Event * list string :=
  let returnList := [] in
  match q with
  | Fetched rows => ([], append_all rows returnList)
  | DbError => ([Print MsgDbError], returnList)
  | OtherError => ([LogError MsgException; Print MsgException], returnList)
  end.

Definition failed {A : Type} (q : Query A) : bool :=
  match q with Fetched _ => false | _ => true end.


End Storage.

(* ===================================================================== *)
(** * The two scripts *)
(* ===================================================================== *)

(** How a run ends: the script falls off its end, or an exception leaves
    the [finally] block and the interpreter stops on it. *)
Inductive Exit : Type :=
| Completed
| UncaughtNameError.

Record Run : Type := mkRun {
  events : list Event;
  exit : Exit
}.

(** What the [try] block did: its records, whether it raised, and
    whether [time_ScriptStarted] was bound by then. *)
Record Tried : Type := mkTried {
  tried_events : list Event;
  raised : bool;
  time_ScriptStarted_bound : bool
}.

Module Script.
Import Storage ReadNewer Filters.

(** [except: logging.error(err)], then [finally:], whose first statement
    reads [time_ScriptStarted]. *)
Definition except_finally (t : Tried) : Run :=
  let ev := tried_events t ++ (if raised t then [LogError MsgException] else []) in
  if time_ScriptStarted_bound t then
    mkRun (ev ++ [LogInfo MsgTotalRunTime; Print MsgTotalRunTime;
                  LogInfo MsgProcessingComplete])
          Completed
  else mkRun ev UncaughtNameError.

(** What [setupArgs] returns of [-m] and [-u]; both default to the empty
    string. *)
Record Args : Type := mkArgs {
  method_to_filter : string;
  uri_to_filter : string
}.

Definition default_args : Args := mkArgs "" "".

(** What [queryDB] meets: connecting raises, or the query does, or the
    rows of the report come back. *)
Inductive ReportQuery : Type :=
| ConnectFails
| ExecuteFails
| Answers (rows : list (string * nat)).

(** [queryDB]: the frame of the report, or [None] from its handlers.  The
    "Querying" message is written once connected. *)
Definition queryDB (q : ReportQuery) : list Event * option (list (string * nat)) :=
  match q with
  | ConnectFails => ([Print MsgDbError], None)
  | ExecuteFails => (say MsgQuerying ++ [Print MsgDbError], None)
  | Answers rows => (say MsgQuerying, Some rows)
  end.

(** [writeDFtoFile]: it writes the file when the frame has rows and the
    report path exists; [theDF.empty] on [None] and a failing [to_csv]
    end in its handler.  It never raises. *)
Definition writeDFtoFile (theDF : option (list (string * nat)))
    (path_exists to_csv_succeeds : bool) : list Event :=
  match theDF with
  | None => [LogError MsgReportError; Print MsgReportError]
  | Some [] => say MsgNothingToReport
  | Some (_ :: _) =>
      if path_exists then
        say MsgWritingReport
        ++ (if to_csv_succeeds then [] else [LogError MsgReportError; Print MsgReportError])
      else say MsgReportPathMissing
  end.

(** The surroundings of a run of [ReadIISLogs.py]. *)
Record IngestEnv : Type := mkIngestEnv {
  config_loads : bool;      (* [config.pkl] opens and unpickles, and holds
                               the key [logFileDir] *)
  logdir_exists : bool;     (* [os.path.exists(logDir)] *)
  logfile_opens : bool;     (* [logging.basicConfig(filename=...)] opens the
                               log file *)
  db_settings_present : bool;  (* the configuration holds the keys read at
                                  lines 345-350 *)
  last_stored : Query (Date * TimeOfDay);
  iis_log_folder : list File;
  write_succeeds : bool;    (* [Util.writeDataFrametoDB] does not raise *)
  report_path_present : bool;  (* the configuration holds [ReportPath] *)
  report_query : ReportQuery;
  report_path_exists : bool;   (* [os.path.exists(reportPath)] *)
  report_written : bool        (* [theDF.to_csv] does not raise *)
}.

Section WithLib.
Variable L : PyLib.

(** Lines 360-429, after [time_ScriptStarted] is bound and the database
    settings are read. *)
Definition ingest (args : Args) (env : IngestEnv) : list Event * bool :=
  let (ev1, lastDateTimeProcessed) := readLastDateTimeProcessed (last_stored env) in
  match lastDateTimeProcessed with
  | None => (ev1, false)
  | Some wm =>
      let (ev2, df_logs) := readNewerLogs L (iis_log_folder env) wm in
      if df_empty df_logs then (ev1 ++ ev2 ++ say MsgNoNewLogData, false)
      else
        let df_logs_Filtered :=
          filter_stage L (method_to_filter args) (uri_to_filter args) df_logs in
        let ev3 := ev1 ++ ev2 ++ say MsgReducing ++ say MsgRunTimeToRead in
        if negb (df_empty df_logs_Filtered) then
          let ev4 := ev3 ++ say (MsgRowsAboutToBeWritten (List.length df_logs_Filtered)) in
          if write_succeeds env then
            let ev5 := ev4 ++ say MsgRunTimeToWrite in
            if report_path_present env then
              let (ev6, reportDF) := queryDB (report_query env) in
              (ev5 ++ ev6
               ++ writeDFtoFile reportDF (report_path_exists env) (report_written env),
               false)
            else (ev5, true)
          else (ev4, true)
        else (ev3 ++ say MsgNoRowsForWriting, false)
  end.

(** The [try] block of [ReadIISLogs.py]: loading the configuration,
    checking the log folder and opening the log file come before line
    343 binds [time_ScriptStarted]; the database settings are read right
    after it. *)
Definition ingest_try (args : Args) (env : IngestEnv) : Tried :=
  if negb (config_loads env) then mkTried [] true false
  else if negb (logdir_exists env) then mkTried [] true false
  else if negb (logfile_opens env) then mkTried [] true false
  else
    let ev0 := [LogInfo MsgProcessingStarting; LogInfo MsgLoggingLevel] in
    if negb (db_settings_present env) then mkTried ev0 true true
    else
      let (ev, r) := ingest args env in
      mkTried (ev0 ++ ev) r true.

Definition main_ReadIISLogs (args : Args) (env : IngestEnv) : Run :=
  except_finally (ingest_try args env).

End WithLib.

(** The country database answers with a name, or it has no entry for
    the address, or the lookup fails (it raises, or answers without a
    name). *)
Inductive Lookup : Type :=
| Country (name : string)
| AddressNotFound
| LookupFailed.

(** [geolocateIP]: [[ip, country]] or the empty list. *)
Definition geolocateIP (theIP : string) (geoip2Reader : string -> Lookup)
    : list Event * option (string * string) :=
  match geoip2Reader theIP with
  | Country name =>
      if 0 <? String.length name then ([], Some (theIP, name)) else ([], None)
  | AddressNotFound => (say (MsgIPNotFound theIP), None)
  | LookupFailed => ([LogError MsgException; LogError MsgException;
                      Print MsgException], None)
  end.

Record GeoEnv : Type := mkGeoEnv {
  geo_config_loads : bool;     (* [config.pkl] opens and unpickles, and
                                  holds the key [logFileDir] *)
  geo_logdir_exists : bool;
  geo_logfile_opens : bool;    (* [logging.basicConfig(filename=...)] opens
                                  the log file *)
  geo_settings_present : bool; (* the configuration holds the keys read at
                                  lines 181-187 *)
  unresolved : Query string;
  reader_opens : bool;      (* [geoip2.database.Reader(IPDBPathFile)] *)
  country_db : string -> Lookup;
  geo_write_succeeds : bool
}.

(** The loop over [lstIPsTolookup]. *)
Fixpoint lookup_all (ips : list string) (reader : string -> Lookup)
    (nestedlstLocatedIPs : list (string * string))
    : list Event * list (string * string) :=
  match ips with
  | [] => ([], nestedlstLocatedIPs)
  | ip :: rest =>
      let (ev, tmplst) := geolocateIP ip reader in
      let located := match tmplst with
                     | Some ip_country => nestedlstLocatedIPs ++ [ip_country]
                     | None => nestedlstLocatedIPs
                     end in
      let (ev', r) := lookup_all rest reader located in
      (ev ++ ev', r)
  end.

(** Lines 195-232 of [GeolocateIPs.py]. *)
Definition enrich (env : GeoEnv) : list Event * bool :=
  let (ev1, lstIPsTolookup) := getIPsToLookup (unresolved env) in
  let ev2 := ev1 ++ [LogInfo (MsgIPsFound (List.length lstIPsTolookup))] in
  if 0 <? List.length lstIPsTolookup then
    if reader_opens env then
      let (ev3, located) := lookup_all lstIPsTolookup (country_db env) [] in
      if 0 <? List.length located then
        let ev4 := ev2 ++ ev3 ++ say (MsgRowsAboutToBeWritten (List.length located)) in
        (ev4, negb (geo_write_succeeds env))
      else (ev2 ++ ev3 ++ say MsgNoSuccessfulLookups, false)
    else (ev2, true)
  else (ev2 ++ say MsgNoIPsToLookup, false).

(** The [try] block of [GeolocateIPs.py]: [time_ScriptStarted] is bound
    at line 179, after the log file is opened and before the settings
    are read. *)
Definition enrich_try (env : GeoEnv) : Tried :=
  if negb (geo_config_loads env) then mkTried [] true false
  else if negb (geo_logdir_exists env) then mkTried [] true false
  else if negb (geo_logfile_opens env) then mkTried [] true false
  else if negb (geo_settings_present env) then
    mkTried [LogInfo MsgProcessingStarting] true true
  else
    let (ev, r) := enrich env in
    mkTried (LogInfo MsgProcessingStarting :: ev) r true.

Definition main_GeolocateIPs (env : GeoEnv) : Run :=
  except_finally (enrich_try env).

(** The report of the total run time. *)
Definition reports_run_time (r : Run) : Prop :=
  In (Print MsgTotalRunTime) (events r) \/ In (LogInfo MsgTotalRunTime) (events r).


End Script.

(* ===================================================================== *)
(** * Worked inputs *)
(* ===================================================================== *)

Module Examples.
Import PyDate RefLib ReadNewer.

Definition nl : string := String PyStr.newline EmptyString.

(** A line of an IIS log with the fourteen fields of [header]. *)
Definition log_line (date time method stem query : string) : string :=
  (date ++ " " ++ time ++ " 10.0.0.1 " ++ method ++ " " ++ stem ++ " " ++ query
   ++ " 443 - 1.2.3.4 Mozilla/5.0 200 0 0 15" ++ nl)%string.

Definition software_line : string := ("#Software: Microsoft Internet Information Services 10.0" ++ nl)%string.

(** The row [read_csv] makes of such a line. *)
Definition log_row (date time method stem : string) (query : Cell) : LogRow :=
  mkLogRow (Str date) (Str time) (Str "10.0.0.1") (Str method) (Str stem) query
           (Str "443") (Str "-") (Str "1.2.3.4") (Str "Mozilla/5.0")
           (Str "200") (Str "0") (Str "0") (Str "15").

Definition at_10_00_00 : DateTime := mkDateTime (mkDate 2024 4 19) 10 0 0.

Definition u_ex240418 : File :=
  mkFile "C:\inetpub\logs\u_ex240418.log"
         (software_line ++ log_line "2024-04-18" "23:59:59" "GET" "/a/b" "-")%string.

Definition u_ex240419 : File :=
  mkFile "C:\inetpub\logs\u_ex240419.log"
         (software_line
          ++ log_line "2024-04-19" "09:59:59" "GET" "/a/b" "-"
          ++ log_line "2024-04-19" "10:00:00" "POST" "/c/d" "-")%string.

Definition u_ex240419_later : File :=
  mkFile "C:\inetpub\logs\u_ex240419.log"
         (ftext u_ex240419 ++ log_line "2024-04-19" "10:00:01" "GET" "/a/b" "-")%string.

(** A file named for 20 April that holds a row of 19 April. *)
Definition u_ex240420_misdated : File :=
  mkFile "C:\inetpub\logs\u_ex240420.log"
         (software_line ++ log_line "2024-04-19" "10:00:00" "GET" "/a/b" "-")%string.

Definition u_ex240420 : File :=
  mkFile "C:\inetpub\logs\u_ex240420.log"
         (software_line ++ log_line "2024-04-20" "00:00:05" "GET" "/a/b" "-")%string.

Definition readme : File := mkFile "C:\inetpub\logs\readme.txt" "notes".

(** Two requests, the second with the query text [null]. *)
Definition u_ex240421 : File :=
  mkFile "C:\inetpub\logs\u_ex240421.log"
         (software_line
          ++ log_line "2024-04-21" "08:00:00" "GET" "/a/b" "-"
          ++ log_line "2024-04-21" "08:00:01" "GET" "/a/c" "null")%string.

End Examples.

(* ===================================================================== *)
(** * The properties of the specification *)
(* ===================================================================== *)

Import PyDate DateFacts ReadNewer ReadNewerFacts Filters Storage Script.
Import Examples.

(** ** Re-ingestion *)

(** C1 (as amended): when the watermark is the latest combined timestamp
    over all the rows of the files, and every row is dated no earlier
    than the date in the name of its file, [readNewerLogs] hands back no
    row. *)
Theorem C1_nothing_new_when_rows_match_file_dates
    (L : PyLib) (folder : list File) (wm : DateTime) :
  latest_timestamp L folder = Some wm ->
  forallb (rows_match_file_date L) folder = true ->
  new_rows L folder wm = [].
Proof.
  intros Hm Hdates. rewrite new_rows_of_loop.
  destruct (snd (files_loop L wm folder [])) as [frames|] eqn:E; [|reflexivity].
  apply (files_loop_nothing_new L folder wm Hm folder (incl_refl _) Hdates [] frames E).
Qed.

Lemma C1_witness :
  latest_timestamp RefLib.ref_lib [u_ex240418; u_ex240419] = Some at_10_00_00
  /\ new_rows RefLib.ref_lib [u_ex240418; u_ex240419] at_10_00_00 = [].
Proof.
  split; [vm_compute; reflexivity|].
  apply (C1_nothing_new_when_rows_match_file_dates
           RefLib.ref_lib [u_ex240418; u_ex240419] at_10_00_00);
    vm_compute; reflexivity.
Defined.

(** C1 as stated fails: a file named for 20 April whose only row is of
    19 April 10:00:00 is read in full when the watermark is that very
    timestamp, the latest of the folder. *)
Lemma C1_counterexample :
  latest_timestamp RefLib.ref_lib [u_ex240420_misdated] = Some at_10_00_00
  /\ new_rows RefLib.ref_lib [u_ex240420_misdated] at_10_00_00
     = [log_row "2024-04-19" "10:00:00" "GET" "/a/b" (Str "-")].
Proof. split; vm_compute; reflexivity. Qed.

(** ** The boundary file *)





(** The example of the specification: at a watermark of 10:00:00 the rows
    of 09:59:59 and 10:00:00 are left out, the row of 10:00:01 is taken. *)
Example boundary_one_second_later :
  new_rows RefLib.ref_lib [u_ex240419_later] at_10_00_00
  = [log_row "2024-04-19" "10:00:01" "GET" "/a/b" (Str "-")].
Proof. vm_compute. reflexivity. Qed.

(** ** Skipping older files *)



(** A file of the watermark's date and a file of a later date are both
    opened; the file of the day before is not. *)
Example skip_and_read :
  fst (readNewerLogs RefLib.ref_lib [u_ex240418; u_ex240419_later; u_ex240420]
                     at_10_00_00)
  = say MsgReadingFolder ++ say (MsgFilesFound 3)
    ++ say (MsgSkipping (fpath u_ex240418))
    ++ say (MsgLoading (fpath u_ex240419_later))
    ++ say (MsgFilteringLaterThan at_10_00_00)
    ++ say (MsgLoading (fpath u_ex240420)).
Proof. vm_compute. reflexivity. Qed.

(** ** The fallback parse *)

(** C4: [readFileTheHardWay] returns, for every text, the splits of the
    lines that are not comments and have exactly [numCols] items; so a
    file of [N] such lines, [M] lines of another size and any number of
    comment lines gives [N] rows, and no line makes the parse fail. *)
Theorem C4_fallback_keeps_well_formed_lines
    (numCols : nat) (ls : list string) (N M : nat) :
  forallb HardWay.is_line ls = true ->
  List.length (filter (HardWay.well_formed numCols) ls) = N ->
  List.length (filter (HardWay.wrong_count numCols) ls) = M ->
  (forall text,
      t_rows (HardWay.readFileTheHardWay (Some text) numCols)
      = map (map Str) (HardWay.tolerant_parse numCols text))
  /\ t_rows (HardWay.readFileTheHardWay (Some (HardWay.text_of_lines ls)) numCols)
     = map (fun l => map Str (PyStr.split PyStr.space l))
           (filter (HardWay.well_formed numCols) ls)
  /\ List.length
       (t_rows (HardWay.readFileTheHardWay (Some (HardWay.text_of_lines ls)) numCols))
     = N
  /\ List.length ls = N + M + List.length (filter PyStr.is_comment ls).
Proof.
  intros Hlines HN HM.
  assert (Hrows : t_rows (HardWay.readFileTheHardWay
                            (Some (HardWay.text_of_lines ls)) numCols)
                  = map (fun l => map Str (PyStr.split PyStr.space l))
                        (filter (HardWay.well_formed numCols) ls)).
  { rewrite HardWay.hard_way_rows. unfold HardWay.tolerant_parse.
    rewrite (HardWay.readlines_text_of_lines ls Hlines). now rewrite map_map. }
  split; [exact (HardWay.hard_way_rows numCols)|]. split; [exact Hrows|]. split.
  - rewrite Hrows, length_map. exact HN.
  - rewrite <- HN, <- HM. apply HardWay.count_partition.
Qed.

Definition four_lines : list string :=
  [software_line;
   log_line "2024-04-19" "10:00:00" "GET" "/a/b" "-";
   ("2024-04-19 10:00" ++ nl)%string;
   log_line "2024-04-19" "10:00:02" "POST" "/c/d" "-"].

Lemma C4_witness :
  List.length
    (t_rows (HardWay.readFileTheHardWay
               (Some (HardWay.text_of_lines four_lines)) 14)) = 2
  /\ List.length four_lines = 2 + 1 + 1.
Proof.
  destruct (C4_fallback_keeps_well_formed_lines 14 four_lines 2 1)
    as [_ [_ [Hn Hall]]]; [reflexivity|reflexivity|reflexivity|].
  split; [exact Hn|exact Hall].
Defined.

(** ** A file name without a date *)

(** C7 (as amended): when the name of any file of the folder has no
    date that parses where one is expected, parsing raises inside the
    loop, the handler of [readNewerLogs] logs the exception, and the run
    hands back no row at all, of any file. *)
Theorem C7_unparseable_name_empties_the_run
    (L : PyLib) (folder : list File) (wm : DateTime) (file : File) :
  In file folder ->
  file_date L file = None ->
  new_rows L folder wm = []
  /\ In (LogError MsgException) (fst (readNewerLogs L folder wm)).
Proof.
  intros Hin Hbad.
  pose proof (files_loop_raises L wm folder file Hin Hbad []) as Hnone.
  unfold new_rows, readNewerLogs.
  destruct (files_loop L wm folder []) as [ev r]. simpl in Hnone. subst r.
  split; [reflexivity|]. simpl.
  do 4 right. apply in_app_iff. right. now left.
Qed.

Lemma C7_witness :
  new_rows RefLib.ref_lib [u_ex240420; readme] at_10_00_00 = []
  /\ In (LogError MsgException)
        (fst (readNewerLogs RefLib.ref_lib [u_ex240420; readme] at_10_00_00)).
Proof.
  apply (C7_unparseable_name_empties_the_run
           RefLib.ref_lib [u_ex240420; readme] at_10_00_00 readme).
  - simpl. right. left. reflexivity.
  - vm_compute. reflexivity.
Defined.

(** C7 as stated fails: next to [readme.txt] the well-named file of
    20 April contributes nothing, while alone it contributes its row. *)
Lemma C7_counterexample :
  new_rows RefLib.ref_lib [u_ex240420] at_10_00_00
  = [log_row "2024-04-20" "00:00:05" "GET" "/a/b" (Str "-")]
  /\ new_rows RefLib.ref_lib [u_ex240420; readme] at_10_00_00 = [].
Proof. split; vm_compute; reflexivity. Qed.

(** ** Truncation *)

(** C9: when the slicing of lines 225-228 returns, it has kept every
    row, in place; in each row the four text columns are cut to their
    first 499, 255, 255 and 399 characters and the ten other columns are
    untouched.  It raises only when one of the four columns is not typed
    as text, never because a field is long.  Every row [readNewerLogs]
    hands back has been through it. *)
Theorem C9_silent_truncation (text_typed : bool) (df : DataFrame) :
  match slice_text_columns text_typed df with
  | Loaded out =>
      List.length out = List.length df
      /\ Forall2 (fun r r' => row_bounded r' /\ sliced_from r r') df out
  | Raised => text_typed = false
  | Skipped => False
  end
  /\ (forall L folder wm, Forall row_bounded (new_rows L folder wm)).
Proof.
  split; [|intros L folder wm; apply new_rows_bounded].
  unfold slice_text_columns. destruct text_typed; [|reflexivity].
  rewrite truncate_rowwise. split; [apply length_map|].
  induction df as [|r df IH]; simpl; constructor; [|exact IH].
  split; [apply clamp_row_bounded|apply clamp_row_from].
Qed.

Definition long_stem : string := string_of_list_ascii (repeat "a"%char 600).

(** The example of the specification: 600 characters become 499. *)
Example truncation_of_600 :
  map (fun r => match cs_uri_stem r with
                | Str s => String.length s
                | NaN => 0
                end)
      (truncate [log_row "2024-04-19" "10:00:01" "GET" long_stem (Str "-")])
  = [499].
Proof. vm_compute. reflexivity. Qed.

(** A file whose only query text is [null]: [read_csv] reads the column
    as missing values, types it as numbers, [.str] raises on it and the
    run hands back no row, not even the row of the file before. *)
Definition u_ex240421_null_query : File :=
  mkFile "C:\inetpub\logs\u_ex240421.log"
         (software_line ++ log_line "2024-04-21" "08:00:01" "GET" "/a/c" "null")%string.

Example slicing_a_column_without_text :
  str_accessor_applies RefLib.ref_lib u_ex240421_null_query = false
  /\ snd (process_file RefLib.ref_lib at_10_00_00 u_ex240421_null_query) = Raised
  /\ new_rows RefLib.ref_lib [u_ex240420; u_ex240421_null_query] at_10_00_00 = [].
Proof. repeat split; vm_compute; reflexivity. Qed.

(** ** The method and URI filters *)

(** With both filters given, the rows kept are the rows without a missing
    cell on which both tests hold: the method filter, then the URI filter
    on what it left, select what each would select alone. *)
Lemma filter_composition (L : PyLib) (m u : string) (df : DataFrame) (r : LogRow) :
  m <> EmptyString -> u <> EmptyString ->
  (In r (filter_stage L m u df)
   <-> In r (filter_stage L m EmptyString df) /\ In r (filter_stage L EmptyString u df))
  /\ (In r (filter_stage L m u df)
      <-> In r df /\ row_complete r = true
          /\ cs_method r = Str m /\ uri_has L u r = true).
Proof.
  intros Hm Hu. split; [now apply filter_stage_in_both|].
  rewrite filter_stage_both by assumption.
  rewrite filter_In, !andb_true_iff. unfold method_is.
  assert (Hc : cell_eqb (cs_method r) (Str m) = true <-> cs_method r = Str m).
  { destruct (cs_method r) as [|s]; simpl.
    - split; discriminate.
    - rewrite String.eqb_eq. split; [now intros ->|now intros [= ->]]. }
  rewrite Hc. tauto.
Qed.

(** The example of the specification: methods GET and POST, stems [/a/b]
    and [/c/d], filtered for GET and [/a]. *)
Example get_and_a :
  filter_stage RefLib.ref_lib "GET" "/a"
    [log_row "2024-04-19" "10:00:01" "GET" "/a/b" (Str "-");
     log_row "2024-04-19" "10:00:02" "POST" "/a/b" (Str "-");
     log_row "2024-04-19" "10:00:03" "GET" "/c/d" (Str "-");
     log_row "2024-04-19" "10:00:04" "POST" "/c/d" (Str "-")]
  = [log_row "2024-04-19" "10:00:01" "GET" "/a/b" (Str "-")].
Proof. vm_compute. reflexivity. Qed.

(** C5 fails on the code: of two GET requests under [/a], the one whose
    query text is [null] reaches the filters with a missing cell; it
    passes both tests, and [dropna] removes it with the rows that [where]
    blanked.  Without filters the same row is kept. *)
Theorem C5_row_with_missing_cell_is_dropped :
  new_rows RefLib.ref_lib [u_ex240421] at_10_00_00
  = [log_row "2024-04-21" "08:00:00" "GET" "/a/b" (Str "-");
     log_row "2024-04-21" "08:00:01" "GET" "/a/c" NaN]
  /\ method_is "GET" (log_row "2024-04-21" "08:00:01" "GET" "/a/c" NaN) = true
  /\ uri_has RefLib.ref_lib "/a" (log_row "2024-04-21" "08:00:01" "GET" "/a/c" NaN)
     = true
  /\ filter_stage RefLib.ref_lib "GET" "/a"
       (new_rows RefLib.ref_lib [u_ex240421] at_10_00_00)
     = [log_row "2024-04-21" "08:00:00" "GET" "/a/b" (Str "-")]
  /\ filter_stage RefLib.ref_lib "" ""
       (new_rows RefLib.ref_lib [u_ex240421] at_10_00_00)
     = new_rows RefLib.ref_lib [u_ex240421] at_10_00_00.
Proof. repeat split; vm_compute; reflexivity. Qed.

Definition empty_method_row : LogRow :=
  log_row "2024-04-19" "10:00:01" "" "/a/b" (Str "-").

Definition get_row : LogRow :=
  log_row "2024-04-19" "10:00:02" "GET" "/a/b" (Str "-").

(** C10: with both arguments empty, as they are by default, the filter
    stage hands its frame back unchanged; and no choice of the two arguments makes it select the
    rows whose method is the empty string. *)
Theorem C10_empty_arguments_disable_filtering (L : PyLib) :
  (forall df,
      filter_stage L (method_to_filter default_args) (uri_to_filter default_args) df
      = df)
  /\ (forall m u,
         filter_stage L m u [empty_method_row; get_row]
         <> filter (method_is "") [empty_method_row; get_row]).
Proof.
  split; [reflexivity|].
  intros m u. change (filter (method_is "") [empty_method_row; get_row])
    with [empty_method_row].
  destruct m as [|a m]; [destruct u as [|b u]|].
  - rewrite filter_stage_none. discriminate.
  - rewrite filter_stage_uri by discriminate.
    cbn [filter]. unfold uri_has. cbn [cs_uri_stem empty_method_row get_row log_row].
    destruct (str_contains L (String b u) "/a/b"); cbn; discriminate.
  - intros H.
    assert (Hin : In empty_method_row (filter_stage L (String a m) u
                                         [empty_method_row; get_row]))
      by (rewrite H; now left).
    assert (Hmeth : method_is (String a m) empty_method_row = true).
    { destruct u as [|b u].
      - rewrite filter_stage_method in Hin by discriminate.
        apply filter_In in Hin. destruct Hin as [_ Hp].
        now apply andb_true_iff in Hp.
      - rewrite filter_stage_both in Hin by discriminate.
        apply filter_In in Hin. destruct Hin as [_ Hp].
        apply andb_true_iff in Hp. destruct Hp as [Hp _].
        now apply andb_true_iff in Hp. }
    discriminate.
Qed.

(** ** Storage failures *)




(** ** The closing report *)

Definition no_config : IngestEnv :=
  mkIngestEnv false true true true (Fetched []) [] true true (Answers []) true true.

Definition geo_no_config : GeoEnv :=
  mkGeoEnv false true true true (Fetched []) true (fun _ => AddressNotFound) true.

(** C8 fails on the code: when [config.pkl] cannot be loaded the [try]
    block raises before [time_ScriptStarted] is bound, so the [finally]
    block raises a [NameError] on its first statement; neither script
    reports its run time, and the run ends on the uncaught exception. *)
Theorem C8_no_run_time_report_without_config :
  main_ReadIISLogs RefLib.ref_lib default_args no_config
  = mkRun [LogError MsgException] UncaughtNameError
  /\ main_GeolocateIPs geo_no_config = mkRun [LogError MsgException] UncaughtNameError
  /\ ~ reports_run_time (main_ReadIISLogs RefLib.ref_lib default_args no_config)
  /\ ~ reports_run_time (main_GeolocateIPs geo_no_config).
Proof.
  repeat split; try reflexivity;
    intros [H|H]; simpl in H; destruct H as [H|[]]; discriminate.
Qed.


(* ===================================================================== *)
(** * Further properties of the fallback parse *)
(* ===================================================================== *)

Module HardWayFacts.
Import PyStr TextFile HardWay.

(** [sep.join(items)] for a one-character separator. *)
Fixpoint join (sep : ascii) (items : list string) : string :=
  match items with
  | [] => EmptyString
  | [x] => x
  | x :: rest => (x ++ String sep (join sep rest))%string
  end.

Lemma split_nonempty (sep : ascii) (s : string) : split sep s <> [].
Proof.
  destruct s as [|c s]; simpl; [discriminate|].
  destruct (Ascii.eqb c sep); [discriminate|].
  destruct (split sep s); discriminate.
Qed.

Lemma join_split (sep : ascii) (s : string) : join sep (split sep s) = s.
Proof.
  induction s as [|c s IH]; [reflexivity|].
  cbn [split]. pose proof (split_nonempty sep s) as Hne.
  destruct (Ascii.eqb c sep) eqn:E.
  - apply Ascii.eqb_eq in E. subst c.
    destruct (split sep s) as [|w ws]; [congruence|].
    cbn [join]. cbn [join] in IH. rewrite IH. reflexivity.
  - destruct (split sep s) as [|w ws]; [congruence|].
    destruct ws as [|w' ws'].
    + cbn [join] in *. now rewrite IH.
    + cbn [join] in *. simpl. now rewrite IH.
Qed.

Lemma text_of_readlines (text : string) : text_of_lines (readlines text) = text.
Proof.
  induction text as [|c t IH]; [reflexivity|].
  cbn [readlines]. destruct (Ascii.eqb c newline).
  - cbn [text_of_lines fold_right]. simpl. f_equal. exact IH.
  - destruct (readlines t) as [|l ls].
    + simpl in IH. subst t. reflexivity.
    + cbn [text_of_lines fold_right] in *. simpl. f_equal. exact IH.
Qed.

Lemma tolerant_parse_row (numCols : nat) (text : string) (items : list string) :
  In items (tolerant_parse numCols text) ->
  exists line, In line (readlines text)
               /\ is_comment line = false
               /\ items = split space line
               /\ List.length items = numCols.
Proof.
  unfold tolerant_parse. intros H. apply in_map_iff in H.
  destruct H as [line [<- Hin]]. apply filter_In in Hin.
  destruct Hin as [Hline Hwf]. unfold well_formed in Hwf.
  apply andb_true_iff in Hwf. destruct Hwf as [Hc Hn].
  exists line. repeat split; auto.
  - now apply negb_true_iff in Hc.
  - now apply Nat.eqb_eq in Hn.
Qed.

Lemma map_astype_str (items : list string) :
  map ReadNewer.astype_str (map Str items) = items.
Proof. induction items as [|x xs IH]; simpl; [reflexivity|now rewrite IH]. Qed.

Lemma row_of_cells_some (cs : list Cell) :
  List.length cs = 14 ->
  exists r, row_of_cells cs = Some r /\ Filters.row_cells r = cs.
Proof.
  intros H.
  do 14 (destruct cs as [|? cs]; [discriminate|]).
  destruct cs; [|discriminate].
  eexists. split; reflexivity.
Qed.

Lemma rows_of_cells_some (rows : list (list Cell)) :
  Forall (fun cs => List.length cs = 14) rows ->
  exists df, rows_of_cells rows = Some df /\ map Filters.row_cells df = rows.
Proof.
  induction 1 as [|cs rows Hcs _ IH]; [exists []; split; reflexivity|].
  destruct (row_of_cells_some cs Hcs) as [r [Hr Hcells]].
  destruct IH as [df [Hdf Hmap]].
  exists (r :: df). simpl. rewrite Hr, Hdf, Hcells, Hmap. split; reflexivity.
Qed.

Lemma table_width (n : nat) (lines : list (list string)) :
  lines <> [] -> Forall (fun l => List.length l = n) lines ->
  t_ncols (table_of_lines lines) = n.
Proof.
  intros Hne Hall. unfold table_of_lines. cbn [t_ncols].
  destruct lines as [|l ls]; [congruence|]. clear Hne.
  apply Forall_cons_iff in Hall. destruct Hall as [Hl Hls]. cbn [fold_right].
  assert (Hle : fold_right (fun l0 w => Nat.max (List.length l0) w) 0 ls <= n).
  { induction Hls as [|l' ls' Hl' _ IH]; simpl; [lia|]. rewrite Hl'. lia. }
  rewrite Hl. lia.
Qed.

Lemma tolerant_parse_widths (numCols : nat) (text : string) :
  Forall (fun l => List.length l = numCols) (tolerant_parse numCols text).
Proof.
  apply Forall_forall. intros items H.
  destruct (tolerant_parse_row numCols text items H) as [_ [_ [_ [_ Hn]]]].
  exact Hn.
Qed.

End HardWayFacts.

(** Every row of the table [readFileTheHardWay] builds is a line of the
    text, cut at its single spaces: the line is not a comment, it has
    [numCols] items, and the items joined by single spaces give the line
    back, newline included. *)
Theorem hard_way_rows_are_lines (text : string) (numCols : nat) (cells : list Cell) :
  In cells (t_rows (HardWay.readFileTheHardWay (Some text) numCols)) ->
  exists line,
    In line (TextFile.readlines text)
    /\ PyStr.is_comment line = false
    /\ cells = map Str (PyStr.split PyStr.space line)
    /\ List.length cells = numCols
    /\ HardWayFacts.join PyStr.space (map astype_str cells) = line.
Proof.
  rewrite HardWay.hard_way_rows. intros H. apply in_map_iff in H.
  destruct H as [items [<- Hin]].
  destruct (HardWayFacts.tolerant_parse_row numCols text items Hin)
    as [line [Hline [Hc [Hitems Hn]]]].
  exists line. repeat split; auto.
  - now rewrite Hitems.
  - now rewrite length_map.
  - rewrite HardWayFacts.map_astype_str, Hitems. apply HardWayFacts.join_split.
Qed.

Lemma hard_way_rows_are_lines_witness :
  exists line,
    In line (TextFile.readlines (HardWay.text_of_lines four_lines))
    /\ PyStr.is_comment line = false
    /\ map Str (PyStr.split PyStr.space
                  (log_line "2024-04-19" "10:00:00" "GET" "/a/b" "-"))
       = map Str (PyStr.split PyStr.space line)
    /\ List.length
         (map Str (PyStr.split PyStr.space
                     (log_line "2024-04-19" "10:00:00" "GET" "/a/b" "-"))) = 14
    /\ HardWayFacts.join PyStr.space
         (map astype_str
            (map Str (PyStr.split PyStr.space
                        (log_line "2024-04-19" "10:00:00" "GET" "/a/b" "-"))))
       = line.
Proof.
  apply (hard_way_rows_are_lines (HardWay.text_of_lines four_lines) 14).
  vm_compute. left. reflexivity.
Defined.

(** After the fallback, the column assignment of line 211 succeeds
    exactly when at least one line was kept; the frame then has one row
    per kept line, with the items of the line as its cells, in column
    order. *)
Theorem hard_way_then_columns (text : string) :
  match set_columns (HardWay.readFileTheHardWay (Some text) (List.length columns)) with
  | Some df =>
      df <> []
      /\ map row_cells df
         = map (map Str) (HardWay.tolerant_parse (List.length columns) text)
  | None => HardWay.tolerant_parse (List.length columns) text = []
  end.
Proof.
  unfold HardWay.readFileTheHardWay. rewrite HardWay.hard_way_lines.
  pose proof (HardWayFacts.tolerant_parse_widths (List.length columns) text) as Hw.
  destruct (HardWay.tolerant_parse (List.length columns) text) as [|l ls] eqn:E;
    [reflexivity|].
  cbn [List.length Nat.ltb Nat.leb].
  assert (Hcells : Forall (fun cs => List.length cs = 14) (map (map Str) (l :: ls))).
  { apply Forall_forall. intros cs Hcs. apply in_map_iff in Hcs.
    destruct Hcs as [items [<- Hin]]. rewrite length_map.
    rewrite Forall_forall in Hw. now apply Hw. }
  destruct (HardWayFacts.rows_of_cells_some _ Hcells) as [df [Hdf Hmap]].
  unfold set_columns.
  rewrite (HardWayFacts.table_width (List.length columns) (l :: ls))
    by (try discriminate; exact Hw).
  rewrite Nat.eqb_refl. cbn [t_rows table_of_lines]. rewrite Hdf.
  split; [|exact Hmap]. destruct df; [discriminate|discriminate].
Qed.

(* ===================================================================== *)
(** * Further properties of [readNewerLogs] *)
(* ===================================================================== *)

Module FolderFacts.

Section WithLib.
Variable L : PyLib.

(** The turn of a file raises. *)
Definition turn_raises (wm : DateTime) (file : File) : bool :=
  match snd (process_file L wm file) with Raised => true | _ => false end.

(** The rows a file adds in its turn. *)
Definition contribution (wm : DateTime) (file : File) : DataFrame :=
  match snd (process_file L wm file) with Loaded df => df | _ => [] end.

Lemma files_loop_raised_turn (wm : DateTime) (folder : list File) (file : File) :
  In file folder -> turn_raises wm file = true ->
  forall frames, snd (files_loop L wm folder frames) = None.
Proof.
  unfold turn_raises. intros Hin Hbad.
  induction folder as [|f rest IH]; [contradiction|].
  intros frames. simpl.
  destruct Hin as [->|Hin].
  - destruct (process_file L wm file) as [ev [| |df]]; simpl in Hbad;
      [reflexivity|discriminate|discriminate].
  - destruct (process_file L wm f) as [ev [| |df]]; [reflexivity| |].
    + specialize (IH Hin frames).
      destruct (files_loop L wm rest frames); simpl in *. exact IH.
    + specialize (IH Hin (frames ++ [df])).
      destruct (files_loop L wm rest (frames ++ [df])); simpl in *. exact IH.
Qed.

Lemma files_loop_completes (wm : DateTime) (folder : list File) :
  forallb (fun f => negb (turn_raises wm f)) folder = true ->
  forall frames : list DataFrame,
    List.concat
      (match snd (files_loop L wm folder frames) with
       | Some frames' => frames'
       | None => []
       end)
    = List.concat frames ++ List.concat (map (contribution wm) folder).
Proof.
  unfold turn_raises, contribution.
  induction folder as [|f rest IH]; intros Hok frames.
  - simpl. now rewrite app_nil_r.
  - simpl in Hok. apply andb_true_iff in Hok. destruct Hok as [Hf Hrest].
    simpl. destruct (process_file L wm f) as [ev [| |df]]; simpl in Hf |- *.
    + discriminate.
    + specialize (IH Hrest frames).
      destruct (files_loop L wm rest frames). exact IH.
    + specialize (IH Hrest (frames ++ [df])).
      destruct (files_loop L wm rest (frames ++ [df])). simpl in *.
      rewrite IH, concat_app. simpl. rewrite app_nil_r, <- app_assoc. reflexivity.
Qed.

End WithLib.
End FolderFacts.

(** When no turn of the loop raises, the rows of a run are the rows each
    file adds in its turn, in the order of the folder; so the rows of two
    folders put end to end are those of the first followed by those of
    the second. *)
Theorem new_rows_in_folder_order
    (L : PyLib) (wm : DateTime) (first second : list File) :
  forallb (fun f => negb (FolderFacts.turn_raises L wm f)) (first ++ second) = true ->
  new_rows L (first ++ second) wm
  = List.concat (map (FolderFacts.contribution L wm) (first ++ second))
  /\ new_rows L (first ++ second) wm = new_rows L first wm ++ new_rows L second wm.
Proof.
  intros Hok.
  assert (Hrows : forall folder,
             forallb (fun f => negb (FolderFacts.turn_raises L wm f)) folder = true ->
             new_rows L folder wm
             = List.concat (map (FolderFacts.contribution L wm) folder)).
  { intros folder H. rewrite new_rows_of_loop.
    pose proof (FolderFacts.files_loop_completes L wm folder H []) as Hc.
    destruct (snd (files_loop L wm folder [])); exact Hc. }
  split; [now apply Hrows|].
  rewrite (Hrows _ Hok). rewrite forallb_app in Hok.
  apply andb_true_iff in Hok. destruct Hok as [H1 H2].
  rewrite (Hrows _ H1), (Hrows _ H2), map_app, concat_app. reflexivity.
Qed.

Lemma new_rows_in_folder_order_witness :
  new_rows RefLib.ref_lib ([u_ex240418; u_ex240419_later] ++ [u_ex240420]) at_10_00_00
  = [log_row "2024-04-19" "10:00:01" "GET" "/a/b" (Str "-");
     log_row "2024-04-20" "00:00:05" "GET" "/a/b" (Str "-")].
Proof.
  refine (eq_trans
            (proj2 (new_rows_in_folder_order
                      RefLib.ref_lib at_10_00_00
                      [u_ex240418; u_ex240419_later] [u_ex240420] _)) _);
    vm_compute; reflexivity.
Defined.

(** A file with only comment lines, dated on or after the watermark. *)
Definition u_ex240422_header_only : File :=
  mkFile "C:\inetpub\logs\u_ex240422.log" software_line.

(** One file that is read the hard way and in which no line is kept ends
    the run: the column assignment raises outside any handler of the
    loop, and [readNewerLogs] hands back no row of any file. *)
Theorem file_without_rows_empties_the_run
    (L : PyLib) (wm : DateTime) (folder : list File) (file : File) (d : Date) :
  In file folder ->
  file_date L file = Some d ->
  date_geb d (dt_date wm) = true ->
  hard_way_used L file = true ->
  HardWay.tolerant_parse (List.length columns) (ftext file) = [] ->
  new_rows L folder wm = []
  /\ In (LogError MsgException) (fst (readNewerLogs L folder wm)).
Proof.
  intros Hin Hd Hge Hhard Hnone.
  assert (Hr : FolderFacts.turn_raises L wm file = true).
  { unfold FolderFacts.turn_raises.
    now rewrite (fallback_without_rows_raises L wm file d Hd Hge Hhard Hnone). }
  pose proof (FolderFacts.files_loop_raised_turn L wm folder file Hin Hr []) as Hn.
  unfold new_rows, readNewerLogs.
  destruct (files_loop L wm folder []) as [ev r]. simpl in Hn. subst r.
  split; [reflexivity|]. simpl. do 4 right. apply in_app_iff. right. now left.
Qed.

Lemma file_without_rows_empties_the_run_witness :
  new_rows RefLib.ref_lib [u_ex240420; u_ex240422_header_only] at_10_00_00 = []
  /\ In (LogError MsgException)
        (fst (readNewerLogs RefLib.ref_lib [u_ex240420; u_ex240422_header_only]
                            at_10_00_00)).
Proof.
  apply (file_without_rows_empties_the_run
           RefLib.ref_lib at_10_00_00 [u_ex240420; u_ex240422_header_only]
           u_ex240422_header_only (mkDate 2024 4 22)).
  - right. left. reflexivity.
  - vm_compute. reflexivity.
  - vm_compute. reflexivity.
  - vm_compute. reflexivity.
  - vm_compute. reflexivity.
Defined.

(** Raising the watermark never brings rows back: what the boundary
    filter keeps at a later watermark it also keeps at an earlier one. *)
Theorem boundary_filter_antitone
    (L : PyLib) (wm wm' : DateTime) (df kept kept' : DataFrame) :
  datetime_gtb wm wm' = false ->
  boundary_filter L wm df = Some kept ->
  boundary_filter L wm' df = Some kept' ->
  incl kept' kept.
Proof.
  intros Hle Hk Hk'.
  rewrite (boundary_filter_some L wm df kept Hk).
  rewrite (boundary_filter_some L wm' df kept' Hk').
  intros r Hr. apply filter_In in Hr. destruct Hr as [Hin Hn].
  apply filter_In. split; [exact Hin|].
  unfold newer, later_than in *.
  destruct (row_datetime L r) as [| |t]; try discriminate.
  destruct (datetime_gtb t wm) eqn:E; [reflexivity|].
  pose proof (datetime_le_trans t wm wm' E Hle). congruence.
Qed.

Definition at_09_59_59 : DateTime := mkDateTime (mkDate 2024 4 19) 9 59 59.

Lemma boundary_filter_antitone_witness :
  incl [log_row "2024-04-19" "10:00:01" "GET" "/a/b" (Str "-")]
       [log_row "2024-04-19" "10:00:00" "POST" "/c/d" (Str "-");
        log_row "2024-04-19" "10:00:01" "GET" "/a/b" (Str "-")].
Proof.
  apply (boundary_filter_antitone
           RefLib.ref_lib at_09_59_59 at_10_00_00
           (file_rows RefLib.ref_lib u_ex240419_later));
    vm_compute; reflexivity.
Defined.

Lemma truncate_length (df : DataFrame) :
  List.length (truncate df) = List.length df.
Proof. now rewrite truncate_rowwise, length_map. Qed.

(** The first run: the watermark reader answers an empty table with the
    early default, and at that watermark a file whose name carries a
    later date, that loads and whose four sliced columns hold text, is
    taken whole, every row of it, truncated. *)
Theorem first_run_takes_whole_files
    (L : PyLib) (file : File) (d : Date) (df : DataFrame) :
  file_date L file = Some d ->
  date_geb d (dt_date early_default) = true ->
  date_eqb (dt_date early_default) d = false ->
  load_file L file = Some df ->
  str_accessor_applies L file = true ->
  exists wm,
    snd (readLastDateTimeProcessed (Fetched [])) = Some wm
    /\ snd (process_file L wm file) = Loaded (truncate df)
    /\ List.length (FolderFacts.contribution L wm file) = List.length df.
Proof.
  intros Hd Hge Hne Hload Htext. exists early_default. split; [reflexivity|].
  assert (Hp : snd (process_file L early_default file) = Loaded (truncate df)).
  { unfold process_file. now rewrite Hd, Hge, Hload, Hne, Htext. }
  split; [exact Hp|]. unfold FolderFacts.contribution. rewrite Hp.
  apply truncate_length.
Qed.

Lemma first_run_takes_whole_files_witness :
  exists wm,
    snd (readLastDateTimeProcessed (Fetched [])) = Some wm
    /\ snd (process_file RefLib.ref_lib wm u_ex240419)
       = Loaded (truncate (file_rows RefLib.ref_lib u_ex240419))
    /\ List.length (FolderFacts.contribution RefLib.ref_lib wm u_ex240419)
       = List.length (file_rows RefLib.ref_lib u_ex240419).
Proof.
  apply (first_run_takes_whole_files RefLib.ref_lib u_ex240419 (mkDate 2024 4 19));
    vm_compute; reflexivity.
Defined.

(* ===================================================================== *)
(** * The date in a file name *)
(* ===================================================================== *)

Module NameFacts.
Import PyStr.

(** The character occurs in the string. *)
Definition has_char (c : ascii) (s : string) : bool :=
  existsb (Ascii.eqb c) (list_ascii_of_string s).

Lemma has_char_app (c : ascii) (a b : string) :
  has_char c (a ++ b)%string = has_char c a || has_char c b.
Proof.
  unfold has_char. induction a as [|x a IH]; simpl; [reflexivity|].
  rewrite IH. now rewrite orb_assoc.
Qed.

Lemma rsplit_last_none (sep : ascii) (s : string) :
  has_char sep s = false -> rsplit_last sep s = s.
Proof.
  unfold has_char. destruct s as [|c s]; [reflexivity|]. simpl.
  intros H. apply orb_false_iff in H. destruct H as [Hc Hs].
  rewrite Hs. rewrite Ascii.eqb_sym in Hc. now rewrite Hc.
Qed.

Lemma rsplit_last_after (sep : ascii) (dir name : string) :
  has_char sep name = false ->
  rsplit_last sep (dir ++ String sep name)%string = name.
Proof.
  intros Hname. induction dir as [|c dir IH].
  - simpl. fold (has_char sep name). rewrite Hname.
    now rewrite Ascii.eqb_refl.
  - simpl. fold (has_char sep (dir ++ String sep name)%string).
    rewrite has_char_app. unfold has_char at 2. simpl.
    rewrite Ascii.eqb_refl. rewrite orb_true_r. exact IH.
Qed.

Lemma slice_date (pre six rest : string) :
  String.length pre = 4 -> String.length six = 6 ->
  slice 4 10 (pre ++ six ++ rest)%string = six.
Proof.
  intros Hp Hs. unfold slice.
  do 4 (destruct pre as [|? pre]; [discriminate|]).
  destruct pre; [|discriminate].
  do 6 (destruct six as [|? six]; [discriminate|]).
  destruct six; [|discriminate].
  simpl. destruct rest; reflexivity.
Qed.

End NameFacts.

(** The date text of a file is read at characters 4 to 9 of its base
    name, what follows the last backslash of the path: whatever the
    folder, the four characters before and the extension after. *)
Theorem sfDate_of_log_name (folder pre six rest text : string) :
  String.length pre = 4 ->
  String.length six = 6 ->
  NameFacts.has_char PyStr.backslash (pre ++ six ++ rest)%string = false ->
  sfDate (mkFile (folder ++ String PyStr.backslash (pre ++ six ++ rest))%string text)
  = six.
Proof.
  intros Hp Hs Hb. unfold sfDate. cbn [fpath].
  rewrite NameFacts.rsplit_last_after by exact Hb.
  now apply NameFacts.slice_date.
Qed.

Lemma sfDate_of_log_name_witness :
  sfDate (mkFile ("D:\sites\logs\W3SVC1" ++ String PyStr.backslash
                                         ("u_ex" ++ "240419" ++ ".log"))%string "")
  = "240419".
Proof.
  apply (sfDate_of_log_name "D:\sites\logs\W3SVC1" "u_ex" "240419" ".log" "");
    reflexivity.
Defined.

(** A path written with forward slashes has no backslash to cut at: the
    date text is then read at characters 4 to 9 of the whole path. *)
Theorem sfDate_without_backslash (path text : string) :
  NameFacts.has_char PyStr.backslash path = false ->
  sfDate (mkFile path text) = PyStr.slice 4 10 path.
Proof.
  intros H. unfold sfDate. cbn [fpath]. now rewrite NameFacts.rsplit_last_none.
Qed.

Lemma sfDate_without_backslash_witness :
  sfDate (mkFile "/var/log/iis/u_ex240419.log" "") = "/log/i".
Proof.
  refine (eq_trans (sfDate_without_backslash "/var/log/iis/u_ex240419.log" "" _) _);
    reflexivity.
Defined.

(* ===================================================================== *)
(** * Further properties of truncation and of the filters *)
(* ===================================================================== *)

Module ClampFacts.

Lemma prefix_n_short (n : nat) (s : string) :
  String.length s <= n -> PyStr.prefix_n n s = s.
Proof.
  unfold PyStr.prefix_n. revert s.
  induction n as [|n IH]; intros [|c s]; simpl; intros H;
    [reflexivity|lia|reflexivity|].
  rewrite IH by lia. reflexivity.
Qed.

Lemma str_prefix_within_id (n : nat) (c : Cell) :
  cell_within n c -> str_prefix n c = c.
Proof. destruct c as [|s]; simpl; [reflexivity|]. intros H. now rewrite prefix_n_short. Qed.

Lemma clamp_row_bounded_id (r : LogRow) : row_bounded r -> clamp_row r = r.
Proof.
  intros [H1 [H2 [H3 H4]]]. destruct r. unfold clamp_row. simpl in *.
  unfold truncate_cs_user_agent, truncate_cs_username, truncate_cs_uri_query,
    truncate_cs_uri_stem. simpl.
  rewrite (str_prefix_within_id 499 _ H1), (str_prefix_within_id 255 _ H2),
    (str_prefix_within_id 255 _ H3), (str_prefix_within_id 399 _ H4).
  reflexivity.
Qed.

Lemma truncate_bounded_id (df : DataFrame) : Forall row_bounded df -> truncate df = df.
Proof.
  rewrite truncate_rowwise. induction 1 as [|r df Hr _ IH]; simpl; [reflexivity|].
  now rewrite (clamp_row_bounded_id r Hr), IH.
Qed.

End ClampFacts.

(** Slicing alters nothing that fits: on columns typed as text, a frame
    whose four columns are within 499, 255, 255 and 399 characters goes
    on to [frames] as it is. *)
Theorem truncate_keeps_short_rows (text_typed : bool) (df : DataFrame) :
  text_typed = true ->
  Forall row_bounded df ->
  slice_text_columns text_typed df = Loaded df.
Proof.
  intros -> Hb. unfold slice_text_columns.
  now rewrite (ClampFacts.truncate_bounded_id df Hb).
Qed.

Lemma truncate_keeps_short_rows_witness :
  slice_text_columns (str_accessor_applies RefLib.ref_lib u_ex240419)
                     (file_rows RefLib.ref_lib u_ex240419)
  = Loaded (file_rows RefLib.ref_lib u_ex240419).
Proof.
  apply (truncate_keeps_short_rows
           (str_accessor_applies RefLib.ref_lib u_ex240419)
           (file_rows RefLib.ref_lib u_ex240419)).
  - vm_compute. reflexivity.
  - vm_compute. repeat constructor; simpl; lia.
Defined.

(** Truncating twice is truncating once. *)
Theorem truncate_idempotent (df : DataFrame) : truncate (truncate df) = truncate df.
Proof. apply ClampFacts.truncate_bounded_id. apply truncate_bounded. Qed.

(** [filter_composition] at the two rows above. *)
Lemma filter_composition_witness :
  (In get_row (filter_stage RefLib.ref_lib "GET" "/a" [empty_method_row; get_row])
   <-> In get_row (filter_stage RefLib.ref_lib "GET" "" [empty_method_row; get_row])
       /\ In get_row (filter_stage RefLib.ref_lib "" "/a" [empty_method_row; get_row]))
  /\ (In get_row (filter_stage RefLib.ref_lib "GET" "/a" [empty_method_row; get_row])
      <-> In get_row [empty_method_row; get_row] /\ row_complete get_row = true
          /\ cs_method get_row = Str "GET" /\ uri_has RefLib.ref_lib "/a" get_row = true).
Proof.
  apply (filter_composition
           RefLib.ref_lib "GET" "/a" [empty_method_row; get_row] get_row);
    discriminate.
Defined.

(** The two filters can be applied in either order, one run after the
    other, with the result of giving both at once; and filtering what
    was filtered changes nothing. *)
Theorem filters_commute (L : PyLib) (m u : string) (df : DataFrame) :
  m <> EmptyString -> u <> EmptyString ->
  filter_stage L m EmptyString (filter_stage L EmptyString u df) = filter_stage L m u df
  /\ filter_stage L EmptyString u (filter_stage L m EmptyString df)
     = filter_stage L m u df
  /\ filter_stage L m u (filter_stage L m u df) = filter_stage L m u df.
Proof.
  intros Hm Hu.
  rewrite (filter_stage_uri L u df Hu), (filter_stage_method L m df Hm).
  rewrite (filter_stage_method L m _ Hm), (filter_stage_uri L u _ Hu).
  rewrite (filter_stage_both L m u df Hm Hu), (filter_stage_both L m u _ Hm Hu).
  rewrite !filter_filter.
  repeat split; apply filter_ext_bool; intros r;
    destruct (method_is m r), (uri_has L u r), (row_complete r); reflexivity.
Qed.

Lemma filters_commute_witness :
  filter_stage RefLib.ref_lib "GET" ""
    (filter_stage RefLib.ref_lib "" "/a" [empty_method_row; get_row])
  = [get_row].
Proof.
  refine (eq_trans
            (proj1 (filters_commute RefLib.ref_lib "GET" "/a"
                                    [empty_method_row; get_row] _ _)) _);
    try discriminate.
  vm_compute. reflexivity.
Defined.

(* ===================================================================== *)
(** * Further properties of the enrichment script *)
(* ===================================================================== *)

(** What one address adds to the located list. *)
Definition resolved (reader : string -> Lookup) (ip : string) : list (string * string) :=
  match reader ip with
  | Country name => if 0 <? String.length name then [(ip, name)] else []
  | _ => []
  end.

(** The lookup loop asks about every address once, in order, and a miss
    or a failed lookup stops nothing: the located list is what it was,
    followed by the addresses that have a named country, each paired
    with that name. *)
Theorem lookup_all_resolves
    (ips : list string) (reader : string -> Lookup) (located : list (string * string)) :
  snd (lookup_all ips reader located) = located ++ flat_map (resolved reader) ips.
Proof.
  revert located. induction ips as [|ip rest IH]; intros located.
  - simpl. now rewrite app_nil_r.
  - cbn [lookup_all flat_map]. unfold geolocateIP, resolved.
    destruct (reader ip) as [name| |].
    + destruct (0 <? String.length name).
      * specialize (IH (located ++ [(ip, name)])).
        destruct (lookup_all rest reader (located ++ [(ip, name)])).
        simpl in *. rewrite IH, <- app_assoc. reflexivity.
      * specialize (IH located).
        destruct (lookup_all rest reader located). simpl in *. exact IH.
    + specialize (IH located).
      destruct (lookup_all rest reader located). simpl in *. exact IH.
    + specialize (IH located).
      destruct (lookup_all rest reader located). simpl in *. exact IH.
Qed.

(** Five addresses the database knows and one it does not: all five
    are located. *)
Example miss_is_not_fatal :
  snd (lookup_all ["1.1.1.1"; "2.2.2.2"; "9.9.9.9"; "3.3.3.3"; "4.4.4.4"; "5.5.5.5"]
                  (fun ip => if String.eqb ip "9.9.9.9" then AddressNotFound
                             else Country "Australia") [])
  = [("1.1.1.1", "Australia"); ("2.2.2.2", "Australia"); ("3.3.3.3", "Australia");
     ("4.4.4.4", "Australia"); ("5.5.5.5", "Australia")].
Proof. vm_compute. reflexivity. Qed.

(* ===================================================================== *)
(** * What a run announces it will write *)
(* ===================================================================== *)

Module RunFacts.











End RunFacts.






(** A run that cannot open its log file: the [try] block raises before
    [time_ScriptStarted] is bound, and the run ends as it does without
    its configuration. *)
Example log_file_not_opened :
  main_ReadIISLogs RefLib.ref_lib default_args
    (mkIngestEnv true true false true (Fetched []) [] true true (Answers []) true true)
  = mkRun [LogError MsgException] UncaughtNameError.
Proof. reflexivity. Qed.



(* ===================================================================== *)
(** * The name of the report file *)
(* ===================================================================== *)

Module Report.
Import NameFacts.

(** [s.replace(old, new)] for one-character [old] and [new]. *)
Fixpoint replace (old new : ascii) (s : string) : string :=
  match s with
  | EmptyString => EmptyString
  | String c rest =>
      String (if Ascii.eqb c old then new else c) (replace old new rest)
  end.

(** Lines 416-421. *)
Definition report_name (args : Args) : string :=
  let reportCSV := "Report" in
  let reportCSV :=
    if 0 <? String.length (method_to_filter args)
    then (reportCSV ++ "-" ++ method_to_filter args)%string else reportCSV in
  let reportCSV :=
    if 0 <? String.length (uri_to_filter args)
    then (reportCSV ++ "-" ++ replace "/" "_" (uri_to_filter args))%string
    else reportCSV in
  (reportCSV ++ ".txt")%string.

Lemma replace_removes (old new : ascii) (s : string) :
  Ascii.eqb old new = false -> has_char old (replace old new s) = false.
Proof.
  intros Hne. unfold has_char. induction s as [|c s IH]; [reflexivity|].
  simpl. rewrite IH, orb_false_r.
  destruct (Ascii.eqb c old) eqn:E; [exact Hne|].
  now rewrite Ascii.eqb_sym.
Qed.

Lemma append_assoc (a b c : string) : ((a ++ b) ++ c = a ++ (b ++ c))%string.
Proof. induction a as [|x a IH]; simpl; [reflexivity|now rewrite IH]. Qed.

End Report.

(** The slashes of the URI argument never reach the name of the report
    file; those of the method argument do, unchanged: the name has a
    slash exactly when the method argument has one. *)
Theorem report_name_slashes (args : Args) :
  NameFacts.has_char "/" (Report.report_name args)
  = NameFacts.has_char "/" (method_to_filter args).
Proof.
  unfold Report.report_name.
  destruct (method_to_filter args) as [|a m]; destruct (uri_to_filter args) as [|b u];
    cbn [String.length Nat.ltb Nat.leb];
    rewrite ?NameFacts.has_char_app, ?Report.replace_removes by reflexivity;
    cbn; rewrite ?orb_false_r; reflexivity.
Qed.

(** Different arguments can name the same report file: a method and a
    URI argument give the name that the method argument made of both,
    joined by a hyphen, gives alone. *)
Theorem report_name_collides (m u : string) :
  m <> EmptyString -> u <> EmptyString ->
  Report.report_name (mkArgs m u)
  = Report.report_name (mkArgs (m ++ "-" ++ Report.replace "/" "_" u) "").
Proof.
  intros Hm Hu. unfold Report.report_name. cbn [method_to_filter uri_to_filter].
  destruct m as [|a m]; [congruence|]. destruct u as [|b u]; [congruence|].
  cbn [String.length Nat.ltb Nat.leb String.append].
  rewrite !Report.append_assoc. reflexivity.
Qed.

Lemma report_name_collides_witness :
  Report.report_name (mkArgs "GET" "TrainingMaterials/SAR")
  = Report.report_name (mkArgs "GET-TrainingMaterials_SAR" "").
Proof.
  apply (report_name_collides "GET" "TrainingMaterials/SAR"); discriminate.
Defined.

(* ===================================================================== *)
(** * Where the rows of a run come from *)
(* ===================================================================== *)

Module Provenance.

Section WithLib.
Variable L : PyLib.

Lemma process_file_loaded (wm : DateTime) (file : File) (df : DataFrame) :
  snd (process_file L wm file) = Loaded df ->
  exists d df0,
    file_date L file = Some d
    /\ date_geb d (dt_date wm) = true
    /\ load_file L file = Some df0
    /\ df = truncate (if date_eqb (dt_date wm) d then filter (newer L wm) df0 else df0).
Proof.
  unfold process_file.
  destruct (file_date L file) as [d|]; [|discriminate].
  destruct (date_geb d (dt_date wm)) eqn:Hge; [|discriminate].
  destruct (load_file L file) as [df0|]; [|discriminate].
  unfold slice_text_columns.
  destruct (date_eqb (dt_date wm) d) eqn:Heq.
  - destruct (boundary_step L wm file df0) as [kept|] eqn:Hbs; [|discriminate].
    pose proof (boundary_step_some L wm file df0 kept Hbs) as Hb.
    destruct (str_accessor_applies L file); [|discriminate].
    simpl. intros H. inversion H. subst df.
    exists d, df0. rewrite Heq, (boundary_filter_some L wm df0 kept Hb).
    repeat split; reflexivity || assumption.
  - destruct (str_accessor_applies L file); [|discriminate].
    simpl. intros H. inversion H. subst df.
    exists d, df0. rewrite Heq. repeat split; reflexivity || assumption.
Qed.

Lemma files_loop_frames (wm : DateTime) (folder : list File) :
  forall (frames frames' : list DataFrame),
    snd (files_loop L wm folder frames) = Some frames' ->
    forall df, In df frames' ->
               In df frames
               \/ exists file, In file folder /\ snd (process_file L wm file) = Loaded df.
Proof.
  induction folder as [|f rest IH]; intros frames frames'; simpl.
  - intros H df Hdf. inversion H. subst. now left.
  - destruct (process_file L wm f) as [ev [| |df_f]] eqn:Ef; [discriminate| |].
    + specialize (IH frames frames').
      destruct (files_loop L wm rest frames). simpl in *.
      intros H df Hdf. destruct (IH H df Hdf) as [Hin|[file [Hin Hl]]];
        [now left|right; exists file; split; [now right|exact Hl]].
    + specialize (IH (frames ++ [df_f]) frames').
      destruct (files_loop L wm rest (frames ++ [df_f])). simpl in *.
      intros H df Hdf. destruct (IH H df Hdf) as [Hin|[file [Hin Hl]]].
      * apply in_app_iff in Hin. destruct Hin as [Hin|[<-|[]]]; [now left|].
        right. exists f. split; [now left|]. now rewrite Ef.
      * right. exists file. split; [now right|exact Hl].
Qed.

End WithLib.
End Provenance.

(** Every row a run hands back is the truncated copy of a row of a file
    of the folder whose name carries a date on or after the watermark's
    date; and when that date is the watermark's date, the row is strictly
    later than the watermark.  No row of a skipped file, and no row of
    the boundary file at or before the watermark, is ever handed back. *)
Theorem new_rows_provenance
    (L : PyLib) (folder : list File) (wm : DateTime) (r : LogRow) :
  In r (new_rows L folder wm) ->
  exists file d df0 r0,
    In file folder
    /\ file_date L file = Some d
    /\ date_geb d (dt_date wm) = true
    /\ load_file L file = Some df0
    /\ In r0 df0
    /\ r = clamp_row r0
    /\ (date_eqb (dt_date wm) d = true ->
        exists t, row_datetime L r0 = At t /\ datetime_gtb t wm = true).
Proof.
  rewrite new_rows_of_loop.
  destruct (snd (files_loop L wm folder [])) as [frames|] eqn:E; [|contradiction].
  intros Hr. apply in_concat in Hr. destruct Hr as [df [Hdf Hr]].
  destruct (Provenance.files_loop_frames L wm folder [] frames E df Hdf)
    as [[]|[file [Hfile Hl]]].
  destruct (Provenance.process_file_loaded L wm file df Hl)
    as [d [df0 [Hd [Hge [Hload Hdf0]]]]].
  subst df. rewrite truncate_rowwise in Hr. apply in_map_iff in Hr.
  destruct Hr as [r0 [<- Hr0]].
  destruct (date_eqb (dt_date wm) d) eqn:Heq.
  - apply filter_In in Hr0. destruct Hr0 as [Hin Hn].
    exists file, d, df0, r0.
    split; [exact Hfile|]. split; [exact Hd|]. split; [exact Hge|].
    split; [exact Hload|]. split; [exact Hin|]. split; [reflexivity|].
    intros _. unfold newer, later_than in Hn.
    destruct (row_datetime L r0) as [| |t]; try discriminate.
    exists t. now split.
  - exists file, d, df0, r0.
    split; [exact Hfile|]. split; [exact Hd|]. split; [exact Hge|].
    split; [exact Hload|]. split; [exact Hr0|]. split; [reflexivity|].
    intros H. rewrite Heq in H. discriminate H.
Qed.

Lemma new_rows_provenance_witness :
  exists file d df0 r0,
    In file [u_ex240418; u_ex240419_later]
    /\ file_date RefLib.ref_lib file = Some d
    /\ date_geb d (dt_date at_10_00_00) = true
    /\ load_file RefLib.ref_lib file = Some df0
    /\ In r0 df0
    /\ log_row "2024-04-19" "10:00:01" "GET" "/a/b" (Str "-") = clamp_row r0
    /\ (date_eqb (dt_date at_10_00_00) d = true ->
        exists t, row_datetime RefLib.ref_lib r0 = At t
                  /\ datetime_gtb t at_10_00_00 = true).
Proof.
  apply (new_rows_provenance RefLib.ref_lib [u_ex240418; u_ex240419_later]
                             at_10_00_00).
  vm_compute. left. reflexivity.
Defined.
